(** * FlashbotLaunch: the signed-request layer of the relay client

    A shallow embedding of the Go package [flashbot] (the gateway file with
    [SendBundle], [CallBundle], [SendPrivateTransaction], [GetUserStats],
    [requestRPC], [flashbotHeader], [HexToECDSA], [HextoBlockNumber],
    [RelayDefaultRPC] and [New]), followed by the properties of the
    specification that concern it.

    Conventions.
    - Go [string] is [string]; Go [[]byte] is [list byte]; the conversions
      [[]byte(s)] and [string(b)] are [list_byte_of_string] and
      [string_of_list_byte].
    - [uint64], [uint] and [int], [int64] are [N] and [Z] (64-bit platform):
      the package does no arithmetic on them, and their range matters only
      where a JSON number is stored into a field.
    - A Go pointer that may be nil is an [option]; a slice is a [slice]
      ([None] is the nil slice).
    - The functions of the libraries the package calls (go-ethereum's [crypto],
      [encoding/json]'s text layer, [net/http]) are the fields of the class
      [Collaborators]; what the package itself decides is defined here. *)

From Stdlib Require Import List String Ascii Bool ZArith NArith Arith Lia.
From Stdlib.Strings Require Import Byte.
Import ListNotations.

Local Open Scope string_scope.
Local Open Scope list_scope.

Set Implicit Arguments.

(** Go's [+] on strings. *)
Infix "+++" := String.append (right associativity, at level 60).

(** ** Go values *)

Definition bytes := list byte.

Definition slice (A : Type) := option (list A).

Definition len {A} (s : slice A) : nat :=
  match s with
  | None => 0
  | Some l => List.length l
  end.

(** The elements of a slice, nil or not. *)
Definition elems {A} (s : slice A) : list A :=
  match s with
  | None => []
  | Some l => l
  end.

Definition uint64 := N.
Definition int64 := Z.

Definition uint64_max : Z := 18446744073709551615.
Definition int64_min : Z := -9223372036854775808.
Definition int64_max : Z := 9223372036854775807.

(** ** strconv and hexutil *)

Module strconv.

(** The digit table of [strconv]: "0123456789abcdefghijklmnopqrstuvwxyz". *)
Definition digit (d : N) : ascii :=
  if (d <? 10)%N then ascii_of_N (48 + d) else ascii_of_N (87 + d).

(** [formatBits]: digits are produced from the least significant one and
    prepended, until the quotient is zero. *)
Fixpoint formatBits (fuel : nat) (base u : N) (acc : string) : string :=
  let acc' := String (digit (u mod base)) acc in
  match fuel with
  | O => acc'
  | S k => if (u / base =? 0)%N then acc' else formatBits k base (u / base) acc'
  end.

(** [strconv.FormatUint(u, base)]. The fuel is the bit length of [u], a
    bound on the number of digits in any base from 2 up. *)
Definition FormatUint (u : N) (base : N) : string :=
  formatBits (N.to_nat (N.log2 u)) base u "".

(** [strconv.Itoa] on a length. *)
Definition Itoa (n : nat) : string := FormatUint (N.of_nat n) 10.

End strconv.

Module hexutil.

(** [hex.EncodeToString]: two lower-case digits per byte. *)
Fixpoint hexEncodeToString (b : bytes) : string :=
  match b with
  | [] => ""
  | x :: r =>
      let n := Byte.to_N x in
      String (strconv.digit (n / 16)) (String (strconv.digit (n mod 16)) (hexEncodeToString r))
  end.

(** [hexutil.Encode(b)]: "0x" followed by the hex digits of [b]. *)
Definition Encode (b : bytes) : string := "0x" +++ hexEncodeToString b.

(** [hexutil.EncodeUint64(i)]: "0x" followed by [strconv.AppendUint(i, 16)]. *)
Definition EncodeUint64 (i : uint64) : string := "0x" +++ strconv.FormatUint i 16.

(** The value of a hex digit, in either case. *)
Definition hexDigit (c : ascii) : option N :=
  let n := N_of_ascii c in
  if ((48 <=? n) && (n <=? 57))%N then Some (n - 48)%N
  else if ((97 <=? n) && (n <=? 102))%N then Some (n - 87)%N
  else if ((65 <=? n) && (n <=? 70))%N then Some (n - 55)%N
  else None.

(** [strconv.ParseUint(raw, 16, 64)], before its range check. *)
Fixpoint parseHex (acc : N) (raw : string) : option N :=
  match raw with
  | EmptyString => Some acc
  | String c r =>
      match hexDigit c with
      | Some d => parseHex (acc * 16 + d) r
      | None => None
      end
  end.

(** [hexutil.DecodeUint64(input)], the reader of the format [EncodeUint64]
    writes: the prefix "0x" or "0X", at least one digit, no leading zero
    before another digit, and a value of 64 bits. *)
Definition DecodeUint64 (input : string) : option uint64 :=
  match input with
  | String "0" (String x raw) =>
      if (Ascii.eqb x "x" || Ascii.eqb x "X")%bool then
        match raw with
        | EmptyString => None
        | String "0" (String _ _) => None
        | _ =>
            match parseHex 0 raw with
            | Some n => if (n <=? 18446744073709551615)%N then Some n else None
            | None => None
            end
        end
      else None
  | _ => None
  end.

End hexutil.

(** ** Errors and results *)

(** The [error] values that occur in the package. *)
Inductive error : Type :=
| errorTransaction
    (* var errorTransaction = errors.New(...) *)
| errNetType (netType : string)
    (* fmt.Errorf("The netType is wrong!:", netType) *)
| SyntaxError
    (* *json.SyntaxError: the reply is not valid JSON text *)
| UnmarshalTypeError (value : string) (field : string)
    (* *json.UnmarshalTypeError: a JSON value does not fit the Go field *)
| LibraryError (msg : string).
    (* an error returned by a collaborator *)

(** A Go pair [(v, err)] of which exactly one side is set. *)
Inductive result (A : Type) : Type :=
| Ok (a : A)
| Err (e : error).

Arguments Ok {A} a.
Arguments Err {A} e.

(** ** JSON values *)

(** A JSON number is kept as the integer it denotes when its literal has
    neither fraction nor exponent, as its literal otherwise. *)
Inductive number : Type :=
| Int (z : Z)
| NonInt (literal : string).

Unset Elimination Schemes.

Inductive json : Type :=
| JNull
| JBool (b : bool)
| JNum (n : number)
| JStr (s : string)
| JArr (l : list json)
| JObj (members : list (string * json)).

Set Elimination Schemes.

(** ** Request parameters *)

(* ############
    sendBundle
   ############ *)
Module SendBundleParams.
Record t : Type := {
  Transactions : slice string;      (* `json:"txs"` *)
  BlockNumber : string;             (* `json:"blockNumber"` *)
  MinTimestamp : int64;             (* `json:"minTimestamp,omitempty"` *)
  MaxTimestamp : int64;             (* `json:"maxTimestamp,omitempty"` *)
  RevertingTxHashes : slice string  (* `json:"revertingTxHashes,omitempty"` *)
}.
End SendBundleParams.

(* ############
    callBundle
   ############ *)
Module CallBundleParams.
Record t : Type := {
  Transactions : slice string;      (* `json:"txs"` *)
  BlockNumber : string;             (* `json:"blockNumber"` *)
  StateBlockNumber : string;        (* `json:"stateBlockNumber"` *)
  Timestamp : int64                 (* `json:"timestamp,omitempty"` *)
}.
End CallBundleParams.

(* ####################
    PrivateTransaction
   #################### *)
(** A [map[string]bool] is its association list in key order; [None] is the
    nil map. *)
Module SendPrivateTx.
Record t : Type := {
  Transaction : string;                       (* `json:"txs"` *)
  MaxBlockNumber : string;                    (* `json:"maxBlockNumber"` *)
  Preferences : option (list (string * bool)) (* `json:"preferences"` *)
}.
End SendPrivateTx.

(** The values the gateways pass as [...interface{}]. *)
Inductive param : Type :=
| PSendBundle (args : SendBundleParams.t)
| PCallBundle (args : CallBundleParams.t)
| PSendPrivateTx (args : SendPrivateTx.t)
| PUint64 (blockNumber : uint64).

Record metaRequestParams : Type := {
  JsonRPC : string;     (* `json:"jsonrpc"` *)
  Id : Z;               (* `json:"id"` *)
  Method : string;      (* `json:"method"` *)
  Params : slice param  (* `json:"params"`, an interface{} holding a []interface{} *)
}.

(** The slice a variadic parameter holds: nil when no argument is passed. *)
Definition variadic {A} (args : list A) : slice A :=
  match args with
  | [] => None
  | _ => Some args
  end.

(** [append(s, more...)]: [s] itself when there is nothing to add. *)
Definition append {A} (s : slice A) (more : slice A) : slice A :=
  match elems more with
  | [] => s
  | _ => Some (elems s ++ elems more)
  end.

(** *** What [json.Marshal] makes of them, as a JSON value *)

Module marshal.

Definition strings (s : slice string) : json :=
  match s with
  | None => JNull
  | Some l => JArr (map JStr l)
  end.

Definition int (z : Z) : json := JNum (Int z).

(** A member tagged [omitempty] is left out when [empty]. *)
Definition omitempty (empty : bool) (name : string) (v : json) : list (string * json) :=
  if empty then [] else [(name, v)].

Definition preferences (m : option (list (string * bool))) : json :=
  match m with
  | None => JNull
  | Some l => JObj (map (fun kv => (fst kv, JBool (snd kv))) l)
  end.

Definition SendBundleParams_json (a : SendBundleParams.t) : json :=
  let '(SendBundleParams.Build_t txs bn mn mx rv) := a in
  JObj ([("txs", strings txs);
         ("blockNumber", JStr bn)]
        ++ omitempty (mn =? 0)%Z "minTimestamp" (int mn)
        ++ omitempty (mx =? 0)%Z "maxTimestamp" (int mx)
        ++ omitempty (len rv =? 0)%nat "revertingTxHashes" (strings rv)).

Definition CallBundleParams_json (a : CallBundleParams.t) : json :=
  let '(CallBundleParams.Build_t txs bn sbn ts) := a in
  JObj ([("txs", strings txs);
         ("blockNumber", JStr bn);
         ("stateBlockNumber", JStr sbn)]
        ++ omitempty (ts =? 0)%Z "timestamp" (int ts)).

Definition SendPrivateTx_json (a : SendPrivateTx.t) : json :=
  let '(SendPrivateTx.Build_t tx mbn prefs) := a in
  JObj [("txs", JStr tx);
        ("maxBlockNumber", JStr mbn);
        ("preferences", preferences prefs)].

Definition param_json (p : param) : json :=
  match p with
  | PSendBundle a => SendBundleParams_json a
  | PCallBundle a => CallBundleParams_json a
  | PSendPrivateTx a => SendPrivateTx_json a
  | PUint64 n => int (Z.of_N n)
  end.

Definition metaRequestParams_json (r : metaRequestParams) : json :=
  JObj [("jsonrpc", JStr (JsonRPC r));
        ("id", int (Id r));
        ("method", JStr (Method r));
        ("params", match Params r with
                   | None => JNull
                   | Some l => JArr (map param_json l)
                   end)].

End marshal.

(** ** Response models *)

(** *** What [json.Unmarshal] stores into a Go value, from a JSON value

    A decoder stores a JSON value into a Go value of its type. A value that
    does not fit leaves the target as it is and is reported; decoding goes on,
    and [json.Unmarshal] returns the first report. [null] stores nil into a
    pointer or a slice and leaves anything else untouched. Of an
    [UnmarshalTypeError] the kind of the JSON value and the Go type are kept
    (not the offset, the field path or the number's literal). *)

Module unmarshal.

Definition dec (A : Type) : Type := json -> A -> A * list error.

Definition kind (j : json) : string :=
  match j with
  | JNull => "null"
  | JBool _ => "bool"
  | JNum _ => "number"
  | JStr _ => "string"
  | JArr _ => "array"
  | JObj _ => "object"
  end.

Definition mismatch {A} (j : json) (gotype : string) (cur : A) : A * list error :=
  (cur, [UnmarshalTypeError (kind j) gotype]).

Definition string_ : dec string :=
  fun j cur =>
    match j with
    | JNull => (cur, [])
    | JStr s => (s, [])
    | _ => mismatch j "string" cur
    end.

Definition bool_ : dec bool :=
  fun j cur =>
    match j with
    | JNull => (cur, [])
    | JBool b => (b, [])
    | _ => mismatch j "bool" cur
    end.

(** [int] and [int64]: the literal must parse as a 64-bit signed integer. *)
Definition int_ (gotype : string) : dec Z :=
  fun j cur =>
    match j with
    | JNull => (cur, [])
    | JNum (Int z) =>
        if ((int64_min <=? z) && (z <=? int64_max))%Z then (z, [])
        else mismatch j gotype cur
    | _ => mismatch j gotype cur
    end.

(** [uint] and [uint64]: the literal must parse as a 64-bit unsigned integer. *)
Definition uint_ (gotype : string) : dec N :=
  fun j cur =>
    match j with
    | JNull => (cur, [])
    | JNum (Int z) =>
        if ((0 <=? z) && (z <=? uint64_max))%Z then (Z.to_N z, [])
        else mismatch j gotype cur
    | _ => mismatch j gotype cur
    end.

(** A pointer: [null] makes it nil; anything else is stored into the
    pointee, which is allocated (zero) first when the pointer is nil. *)
Definition ptr {A} (zero : A) (d : dec A) : dec (option A) :=
  fun j cur =>
    match j with
    | JNull => (None, [])
    | _ =>
        let target := match cur with Some v => v | None => zero end in
        let (v, e) := d j target in
        (Some v, e)
    end.

(** The elements of an array, stored one by one: into the element the slice
    already has at that index, into a zero element beyond its length. (What a
    backing array holds beyond the slice's length is not modelled.) *)
Fixpoint elements {A} (zero : A) (d : dec A) (l : list json) (cur : list A)
  : list A * list error :=
  match l with
  | [] => ([], [])
  | j :: l' =>
      let (v, e) := d j (hd zero cur) in
      let (vs, es) := elements zero d l' (tl cur) in
      (v :: vs, e ++ es)
  end.

Definition slice_ {A} (zero : A) (d : dec A) (gotype : string) : dec (slice A) :=
  fun j cur =>
    match j with
    | JNull => (None, [])
    | JArr l =>
        let (vs, es) := elements zero d l (elems cur) in
        (Some vs, es)
    | _ => mismatch j gotype cur
    end.

(** [foldName]: ASCII letters in upper case; the two runes outside ASCII
    that fold to an ASCII letter, U+017F (bytes C5 BF) to S and U+212A
    (bytes E2 84 AA) to K. The other runes outside ASCII fold to runes
    outside ASCII, and are left as they are: the names compared with are
    ASCII. *)
Definition upper (c : ascii) : ascii :=
  let n := nat_of_ascii c in
  if ((97 <=? n) && (n <=? 122))%nat then ascii_of_nat (n - 32) else c.

Fixpoint foldName (s : string) : string :=
  match s with
  | EmptyString => EmptyString
  | String c r =>
      match nat_of_ascii c, r with
      | 197, String c1 r1 =>
          if (nat_of_ascii c1 =? 191)%nat then String "S" (foldName r1)
          else String c (foldName r)
      | 226, String c1 (String c2 r2) =>
          if ((nat_of_ascii c1 =? 132) && (nat_of_ascii c2 =? 170))%nat
          then String "K" (foldName r2)
          else String c (foldName r)
      | _, _ => String (upper c) (foldName r)
      end
  end.

(** The field a member name selects: the field of that exact name, or else
    the first one equal to it under folding. *)
Definition lookup {A} (fields : list (string * dec A)) (key : string) : option (dec A) :=
  match find (fun f => String.eqb (fst f) key) fields with
  | Some f => Some (snd f)
  | None =>
      match find (fun f => String.eqb (foldName (fst f)) (foldName key)) fields with
      | Some f => Some (snd f)
      | None => None
      end
  end.

(** An object stored into a struct: the members in order, each into the
    field its name selects; a member that selects none is skipped. *)
Definition member {A} (fields : list (string * dec A)) (acc : A * list error)
           (kv : string * json) : A * list error :=
  match lookup fields (fst kv) with
  | Some d => let (v, e) := d (snd kv) (fst acc) in (v, snd acc ++ e)
  | None => acc
  end.

Definition struct_ {A} (fields : list (string * dec A)) (gotype : string) : dec A :=
  fun j cur =>
    match j with
    | JNull => (cur, [])
    | JObj members => fold_left (member fields) members (cur, [])
    | _ => mismatch j gotype cur
    end.

(** A field of a struct: decode into its current value, store the result. *)
Definition field {T A} (get : T -> A) (set : A -> T -> T) (d : dec A) : dec T :=
  fun j cur => let (v, e) := d j (get cur) in (set v cur, e).

(** The reports of a decoder are type errors. *)
Definition isTypeError (e : error) : bool :=
  match e with
  | UnmarshalTypeError _ _ => true
  | _ => false
  end.

Definition typed {A} (d : dec A) : Prop :=
  forall j cur, forallb isTypeError (snd (d j cur)) = true.

(** What [json.Unmarshal] can return as an error. *)
Definition isDecodeError (e : error) : bool :=
  match e with
  | SyntaxError | UnmarshalTypeError _ _ => true
  | _ => false
  end.

End unmarshal.

Import unmarshal.

Module errorResult.
Record t : Type := {
  Code : int64;      (* `json:"code"` *)
  Message : string   (* `json:"message"` *)
}.
Definition zero : t := {| Code := 0%Z; Message := "" |}.
Definition fields : list (string * dec t) :=
  [("code", field Code (fun v s => {| Code := v; Message := Message s |}) (int_ "int64"));
   ("message", field Message (fun v s => {| Code := Code s; Message := v |}) string_)].
Definition decode : dec t := struct_ fields "flashbot.errorResult".
End errorResult.

Module bundleResult.
Record t : Type := {
  BundleHash : string   (* `json:"bundleHash"` *)
}.
Definition zero : t := {| BundleHash := "" |}.
Definition fields : list (string * dec t) :=
  [("bundleHash", field BundleHash (fun v _ => {| BundleHash := v |}) string_)].
Definition decode : dec t := struct_ fields "flashbot.bundleResult".
End bundleResult.

(* ###################
   transaction Result
   ################### *)
Module txResult.
Record t : Type := {
  CoinbaseDiff : string;       (* `json:"coinbaseDiff"` *)
  EthSentToCoinbase : string;  (* `json:"ethSentToCoinbase"` *)
  FromAddress : string;        (* `json:"fromAddress"` *)
  GasFees : string;            (* `json:"gasFees"` *)
  GasPrice : string;           (* `json:"gasPrice"` *)
  GasUsed : uint64;            (* `json:"gasUsed"` *)
  ToAddress : string;          (* `json:"toAddress"` *)
  TxHash : string;             (* `json:"txHash"` *)
  Value : string;              (* `json:"value"` *)
  Error : string               (* `json:"error,omitempty"` *)
}.
Definition zero : t :=
  Build_t "" "" "" "" "" 0%N "" "" "" "".
Definition fields : list (string * dec t) :=
  [("coinbaseDiff",
    field CoinbaseDiff
      (fun v s => let '(Build_t _ b c d e f g h i j) := s in Build_t v b c d e f g h i j) string_);
   ("ethSentToCoinbase",
    field EthSentToCoinbase
      (fun v s => let '(Build_t a _ c d e f g h i j) := s in Build_t a v c d e f g h i j) string_);
   ("fromAddress",
    field FromAddress
      (fun v s => let '(Build_t a b _ d e f g h i j) := s in Build_t a b v d e f g h i j) string_);
   ("gasFees",
    field GasFees
      (fun v s => let '(Build_t a b c _ e f g h i j) := s in Build_t a b c v e f g h i j) string_);
   ("gasPrice",
    field GasPrice
      (fun v s => let '(Build_t a b c d _ f g h i j) := s in Build_t a b c d v f g h i j) string_);
   ("gasUsed",
    field GasUsed
      (fun v s => let '(Build_t a b c d e _ g h i j) := s in Build_t a b c d e v g h i j)
      (uint_ "uint64"));
   ("toAddress",
    field ToAddress
      (fun v s => let '(Build_t a b c d e f _ h i j) := s in Build_t a b c d e f v h i j) string_);
   ("txHash",
    field TxHash
      (fun v s => let '(Build_t a b c d e f g _ i j) := s in Build_t a b c d e f g v i j) string_);
   ("value",
    field Value
      (fun v s => let '(Build_t a b c d e f g h _ j) := s in Build_t a b c d e f g h v j) string_);
   ("error",
    field Error
      (fun v s => let '(Build_t a b c d e f g h i _) := s in Build_t a b c d e f g h i v) string_)].
Definition decode : dec t := struct_ fields "flashbot.txResult".
End txResult.

Module callResult.
Record t : Type := {
  BundleGasPrice : string;      (* `json:"bundleGasPrice"` *)
  BundleHash : string;          (* `json:"bundleHash"` *)
  CoinbaseDiff : string;        (* `json:"coinbaseDiff"` *)
  EthSentToCoinbase : string;   (* `json:"ethSentToCoinbase"` *)
  GasFees : string;             (* `json:"gasFees"` *)
  Results : slice txResult.t;   (* `json:"results"` *)
  StateBlockNumber : uint64;    (* `json:"stateBlockNumber"` *)
  TotalGasUsed : uint64         (* `json:"totalGasUsed"` *)
}.
Definition zero : t := Build_t "" "" "" "" "" None 0%N 0%N.
Definition fields : list (string * dec t) :=
  [("bundleGasPrice",
    field BundleGasPrice
      (fun v s => let '(Build_t _ b c d e f g h) := s in Build_t v b c d e f g h) string_);
   ("bundleHash",
    field BundleHash
      (fun v s => let '(Build_t a _ c d e f g h) := s in Build_t a v c d e f g h) string_);
   ("coinbaseDiff",
    field CoinbaseDiff
      (fun v s => let '(Build_t a b _ d e f g h) := s in Build_t a b v d e f g h) string_);
   ("ethSentToCoinbase",
    field EthSentToCoinbase
      (fun v s => let '(Build_t a b c _ e f g h) := s in Build_t a b c v e f g h) string_);
   ("gasFees",
    field GasFees
      (fun v s => let '(Build_t a b c d _ f g h) := s in Build_t a b c d v f g h) string_);
   ("results",
    field Results
      (fun v s => let '(Build_t a b c d e _ g h) := s in Build_t a b c d e v g h)
      (slice_ txResult.zero txResult.decode "[]flashbot.txResult"));
   ("stateBlockNumber",
    field StateBlockNumber
      (fun v s => let '(Build_t a b c d e f _ h) := s in Build_t a b c d e f v h)
      (uint_ "uint64"));
   ("totalGasUsed",
    field TotalGasUsed
      (fun v s => let '(Build_t a b c d e f g _) := s in Build_t a b c d e f g v)
      (uint_ "uint64"))].
Definition decode : dec t := struct_ fields "flashbot.callResult".
End callResult.

(* ###########
    userStats
   ########### *)
Module userStats.
Record t : Type := {
  IsHighPriority : bool;          (* `json:"is_high_priority"` *)
  AllTimeMinerPayments : string;  (* `json:"all_time_miner_payments"` *)
  AllTimeGasSimulated : string;   (* `json:"all_time_gas_simulated"` *)
  Last7dMinerPayments : string;   (* `json:"last_7d_miner_payments"` *)
  Last7dGasSimulated : string;    (* `json:"last_7d_gas_simulated"` *)
  Last1dMinerPayments : string;   (* `json:"last_1d_miner_payments"` *)
  Last1dGasSimulated : string     (* `json:"last_1d_gas_simulated"` *)
}.
Definition zero : t := Build_t false "" "" "" "" "" "".
Definition fields : list (string * dec t) :=
  [("is_high_priority",
    field IsHighPriority
      (fun v s => let '(Build_t _ b c d e f g) := s in Build_t v b c d e f g) bool_);
   ("all_time_miner_payments",
    field AllTimeMinerPayments
      (fun v s => let '(Build_t a _ c d e f g) := s in Build_t a v c d e f g) string_);
   ("all_time_gas_simulated",
    field AllTimeGasSimulated
      (fun v s => let '(Build_t a b _ d e f g) := s in Build_t a b v d e f g) string_);
   ("last_7d_miner_payments",
    field Last7dMinerPayments
      (fun v s => let '(Build_t a b c _ e f g) := s in Build_t a b c v e f g) string_);
   ("last_7d_gas_simulated",
    field Last7dGasSimulated
      (fun v s => let '(Build_t a b c d _ f g) := s in Build_t a b c d v f g) string_);
   ("last_1d_miner_payments",
    field Last1dMinerPayments
      (fun v s => let '(Build_t a b c d e _ g) := s in Build_t a b c d e v g) string_);
   ("last_1d_gas_simulated",
    field Last1dGasSimulated
      (fun v s => let '(Build_t a b c d e f _) := s in Build_t a b c d e f v) string_)].
Definition decode : dec t := struct_ fields "flashbot.userStats".
End userStats.

Module SendBundleResponse.
Record t : Type := {
  ID : N;                          (* uint, `json:"id"` *)
  Version : string;                (* `json:"jsonrpc"` *)
  Result : option bundleResult.t   (* *bundleResult, `json:"result"` *)
}.
Definition zero : t := Build_t 0%N "" None.
Definition fields : list (string * dec t) :=
  [("id", field ID (fun v s => let '(Build_t _ b c) := s in Build_t v b c) (uint_ "uint"));
   ("jsonrpc", field Version (fun v s => let '(Build_t a _ c) := s in Build_t a v c) string_);
   ("result", field Result (fun v s => let '(Build_t a b _) := s in Build_t a b v)
                (ptr bundleResult.zero bundleResult.decode))].
Definition decode : dec t := struct_ fields "flashbot.SendBundleResponse".
End SendBundleResponse.

Module CallBundleResponse.
Record t : Type := {
  ID : N;                          (* uint, `json:"id"` *)
  Version : string;                (* `json:"jsonrpc"` *)
  Result : option callResult.t;    (* *callResult, `json:"result"` *)
  Error : option errorResult.t;    (* *errorResult, `json:"error"` *)
  Raw : string;
  StatusCode : Z                   (* int *)
}.
Definition zero : t := Build_t 0%N "" None None "" 0%Z.
Definition fields : list (string * dec t) :=
  [("id", field ID (fun v s => let '(Build_t _ b c d e f) := s in Build_t v b c d e f)
            (uint_ "uint"));
   ("jsonrpc", field Version (fun v s => let '(Build_t a _ c d e f) := s in Build_t a v c d e f)
                 string_);
   ("result", field Result (fun v s => let '(Build_t a b _ d e f) := s in Build_t a b v d e f)
                (ptr callResult.zero callResult.decode));
   ("error", field Error (fun v s => let '(Build_t a b c _ e f) := s in Build_t a b c v e f)
               (ptr errorResult.zero errorResult.decode));
   ("Raw", field Raw (fun v s => let '(Build_t a b c d _ f) := s in Build_t a b c d v f)
             string_);
   ("StatusCode", field StatusCode
                    (fun v s => let '(Build_t a b c d e _) := s in Build_t a b c d e v)
                    (int_ "int"))].
Definition decode : dec t := struct_ fields "flashbot.CallBundleResponse".
End CallBundleResponse.

Module SendPrivateTxResponse.
Record t : Type := {
  JsonRPC : string;   (* `json:"jsonrpc"` *)
  Id : Z;             (* int, `json:"id"` *)
  Result : string     (* `json:"result"` *)
}.
Definition zero : t := Build_t "" 0%Z "".
Definition fields : list (string * dec t) :=
  [("jsonrpc", field JsonRPC (fun v s => let '(Build_t _ b c) := s in Build_t v b c) string_);
   ("id", field Id (fun v s => let '(Build_t a _ c) := s in Build_t a v c) (int_ "int"));
   ("result", field Result (fun v s => let '(Build_t a b _) := s in Build_t a b v) string_)].
Definition decode : dec t := struct_ fields "flashbot.SendPrivateTxResponse".
End SendPrivateTxResponse.

Module UserStatsResponse.
Record t : Type := {
  ID : N;                        (* uint, `json:"id"` *)
  Version : string;              (* `json:"jsonrpc"` *)
  Result : option userStats.t    (* *userStats, `json:"result"` *)
}.
Definition zero : t := Build_t 0%N "" None.
Definition fields : list (string * dec t) :=
  [("id", field ID (fun v s => let '(Build_t _ b c) := s in Build_t v b c) (uint_ "uint"));
   ("jsonrpc", field Version (fun v s => let '(Build_t a _ c) := s in Build_t a v c) string_);
   ("result", field Result (fun v s => let '(Build_t a b _) := s in Build_t a b v)
                (ptr userStats.zero userStats.decode))].
Definition decode : dec t := struct_ fields "flashbot.UserStatsResponse".
End UserStatsResponse.

(** ** net/http requests *)

Module http.

Record Request : Type := {
  Method : string;
  URL : string;
  Header : list (string * string);   (* the pairs in the order they were added *)
  Body : bytes
}.

(** A response as the package reads it: the status and what
    [ioutil.ReadAll(resp.Body)] yields (its error is dropped by the caller). *)
Record Response : Type := {
  StatusCode : Z;
  ResponseBody : bytes
}.

(** The bytes of a header field name: RFC 7230 token characters. *)
Definition validHeaderFieldByte (c : ascii) : bool :=
  let n := nat_of_ascii c in
  (((48 <=? n) && (n <=? 57)) || ((65 <=? n) && (n <=? 90)) || ((97 <=? n) && (n <=? 122))
   || existsb (Nat.eqb n) [33; 35; 36; 37; 38; 39; 42; 43; 45; 46; 94; 95; 96; 124; 126])%nat.

Fixpoint allValid (s : string) : bool :=
  match s with
  | EmptyString => true
  | String c r => validHeaderFieldByte c && allValid r
  end.

Definition lower (c : ascii) : ascii :=
  let n := nat_of_ascii c in
  if ((65 <=? n) && (n <=? 90))%nat then ascii_of_nat (n + 32) else c.

(** First letter and the letters after a dash in upper case, the others in
    lower case. *)
Fixpoint canonical (up : bool) (s : string) : string :=
  match s with
  | EmptyString => EmptyString
  | String c r =>
      let c' := if up then upper c else lower c in
      String c' (canonical (Ascii.eqb c' "-") r)
  end.

(** [textproto.CanonicalMIMEHeaderKey]: a name with a byte that is not a
    token character is left as it is. *)
Definition CanonicalMIMEHeaderKey (s : string) : string :=
  if allValid s then canonical true s else s.

(** [req.Header.Add(key, value)]. *)
Definition Header_Add (key value : string) (req : Request) : Request :=
  {| Method := Method req;
     URL := URL req;
     Header := Header req ++ [(CanonicalMIMEHeaderKey key, value)];
     Body := Body req |}.

(** [req.Header.Get(key)]: the first value added under the name, "" if none. *)
Definition Header_Get (key : string) (req : Request) : string :=
  match find (fun kv => String.eqb (fst kv) (CanonicalMIMEHeaderKey key)) (Header req) with
  | Some kv => snd kv
  | None => ""
  end.

(** [req.Header.Values(key)]: all the values added under the name. *)
Definition Header_Values (key : string) (req : Request) : list string :=
  map snd (filter (fun kv => String.eqb (fst kv) (CanonicalMIMEHeaderKey key)) (Header req)).

End http.

(** ** The libraries the package calls *)

Class Collaborators : Type := {
  (** [*ecdsa.PrivateKey] *)
  PrivateKey : Type;
  (** [crypto.Keccak256(data)] *)
  crypto_Keccak256 : bytes -> bytes;
  (** [crypto.Sign(digestHash, prv)]: the 65-byte signature, or an error *)
  crypto_Sign : bytes -> PrivateKey -> result bytes;
  (** [crypto.PubkeyToAddress(prv.PublicKey).Hex()] *)
  crypto_PubkeyToAddress_Hex : PrivateKey -> string;
  (** [crypto.HexToECDSA(hexkey)] *)
  crypto_HexToECDSA : string -> result PrivateKey;
  (** the text [json.Marshal] writes for a JSON value *)
  json_encode : json -> result bytes;
  (** the JSON value [json.Unmarshal] reads from a text; [None] when the text
      is not valid JSON *)
  json_scan : bytes -> option json;
  (** whether [url.Parse] accepts the string *)
  url_Parse_ok : string -> bool;
  (** [client.Do(req)] with the 20 s timeout, then reading the body *)
  client_Do : http.Request -> result http.Response
}.

(** ** Processes: a trace of the work done, and termination by [log.Fatal] *)

Inductive Event : Type :=
| Signed (digestHash : bytes)     (* a call of crypto.Sign *)
| Posted (req : http.Request).    (* a call of client.Do *)

Definition Trace := list Event.

Inductive Outcome (A : Type) : Type :=
| Returned (a : A)       (* the call returns to its caller *)
| Exited (status : Z).   (* the process ends: os.Exit(status) *)

Arguments Returned {A} a.
Arguments Exited {A} status.

Definition Proc (A : Type) : Type := Trace -> Outcome A * Trace.

Definition ret {A} (a : A) : Proc A := fun t => (Returned a, t).

Definition bind {A B} (m : Proc A) (k : A -> Proc B) : Proc B :=
  fun t =>
    match m t with
    | (Returned a, t') => k a t'
    | (Exited status, t') => (Exited status, t')
    end.

Notation "x <- m ;; k" := (bind m (fun x => k))
  (at level 61, m at next level, right associativity).

(** [log.Fatal(v)]: prints, then [os.Exit(1)]. *)
Definition log_Fatal {A} : Proc A := fun t => (Exited 1%Z, t).

Definition emit {A} (e : Event) (a : A) : Proc A := fun t => (Returned a, t ++ [e]).

(** ** The package *)

(* `eth_sendBundle` can be used to send your bundles to the Flashbots builder. *)
Definition MethodSendBundle : string := "eth_sendBundle".

(* eth_callBundle can be used to simulate a bundle against a specific block number,
   including simulating a bundle at the top of the next block. *)
Definition MethodCallBundle : string := "eth_callBundle".

(* `eth_sendPrivateTransaction` used to send a single transaction to Flashbots. *)
Definition MethodSendPrivateTransaction : string := "eth_sendPrivateTransaction".

(* `eth_cancelPrivateTransaction` Method stops private
   transactions from being submitted for future blocks. *)
Definition MethodCancelPrivateTransaction : string := "eth_cancelPrivateTransaction".

Definition MethodEstimateGasBundle : string := "eth_estimateGasBundle".
Definition MethodGetUserStats : string := "flashbots_getUserStats".
Definition MethodGetBundleStats : string := "flashbots_getBundleStats".

Definition HextoBlockNumber (blockNumber : uint64) : string :=
  hexutil.EncodeUint64 blockNumber.

(** The same function under the name it has in Flashbot.go. *)
Definition WrapperBlockNumber (blockNumber : uint64) : string :=
  hexutil.EncodeUint64 blockNumber.

(** [(string, error)]: both sides are set, the string is "" beside an error. *)
Definition RelayDefaultRPC (netType : string) : string * option error :=
  if String.eqb netType "mainnet" then ("https://relay.flashbots.net", None)
  else if String.eqb netType "goerli" then ("https://relay-goerli.flashbots.net", None)
  else ("", Some (errNetType netType)).

Section Package.

Context {libs : Collaborators}.

Record FlashbotLaunch : Type := {
  Rpc : string;
  Key : PrivateKey   (* the field PrivateKey *)
}.

(** [crypto.Sign] as a step of the process. *)
Definition Sign (digestHash : bytes) (prv : PrivateKey) : Proc (result bytes) :=
  emit (Signed digestHash) (crypto_Sign digestHash prv).

(** [client.Do] and [ioutil.ReadAll] as a step of the process. *)
Definition Do (req : http.Request) : Proc (result http.Response) :=
  emit (Posted req) (client_Do req).

(** [accounts.TextHash(data)]:
    Keccak256("\x19Ethereum Signed Message:\n" + len(data) + data). *)
Definition TextHash_prefix : string :=
  String (ascii_of_nat 25) "Ethereum Signed Message:" +++ String (ascii_of_nat 10) "".

Definition TextHash (data : bytes) : bytes :=
  crypto_Keccak256
    (list_byte_of_string
       (TextHash_prefix +++ strconv.Itoa (List.length data) +++ string_of_list_byte data)).

(** [json.Marshal(requestArgs)]. *)
Definition json_Marshal (v : metaRequestParams) : result bytes :=
  json_encode (marshal.metaRequestParams_json v).

(** [json.Unmarshal(data, v)] for a non-nil pointer [v] to a struct: a
    [SyntaxError] when the text is not JSON, else the value stored into [*v]
    and the first type error. *)
Definition json_Unmarshal {A} (d : dec A) (data : bytes) (v : A) : A * option error :=
  match json_scan data with
  | None => (v, Some SyntaxError)
  | Some j => let (v', es) := d j v in (v', hd_error es)
  end.

(** [http.NewRequest(method, url, body)]; the methods used are valid. *)
Definition http_NewRequest (method url : string) (body : bytes) : result http.Request :=
  if url_Parse_ok url
  then Ok {| http.Method := method; http.URL := url; http.Header := []; http.Body := body |}
  else Err (LibraryError "parse").

Definition flashbotHeader (signature : bytes) (privateKey : PrivateKey) : string :=
  crypto_PubkeyToAddress_Hex privateKey +++ ":" +++ hexutil.Encode signature.

Definition HexToECDSA (privateKey : string) : Proc PrivateKey :=
  match crypto_HexToECDSA privateKey with
  | Err _ => log_Fatal
  | Ok key => ret key
  end.

(** [os.Getenv] is the argument [getenv]. *)
Definition New (getenv : string -> string) (relayRPC : string) : Proc FlashbotLaunch :=
  let '(rpc, _) := RelayDefaultRPC relayRPC in
  let privateKey := getenv "PRIVATE_KEY" in
  if String.eqb privateKey "" then log_Fatal
  else
    key <- HexToECDSA privateKey ;;
    ret {| Rpc := rpc; Key := key |}.

(** The envelope [requestRPC] builds. *)
Definition requestArgs (Method : string) (params : slice param) : metaRequestParams :=
  {| JsonRPC := "2.0";
     Id := 1%Z;
     Method := Method;
     Params := append params params |}.

Definition requestRPC (f : FlashbotLaunch) (Method : string) (params : list param)
  : Proc bytes :=
  let params := variadic params in
  let requestArgs := requestArgs Method params in
  match json_Marshal requestArgs with
  | Err _ => log_Fatal
  | Ok payload =>
      match http_NewRequest "POST" (Rpc f) payload with
      | Err _ => log_Fatal
      | Ok req =>
          signed <- Sign (TextHash (list_byte_of_string
                                      (hexutil.Encode (crypto_Keccak256 payload))))
                         (Key f) ;;
          (* headerReady, _ := crypto.Sign(...): nil beside an error *)
          let headerReady := match signed with Ok sig => sig | Err _ => [] end in
          let signature := flashbotHeader headerReady (Key f) in
          let req := http.Header_Add "content-type" "application/json" req in
          let req := http.Header_Add "Accept" "application/json" req in
          let req := http.Header_Add "X-Flashbots-Signature" signature req in
          resp <- Do req ;;
          match resp with
          | Err _ => log_Fatal
          | Ok resp => ret (http.ResponseBody resp)
          end
      end
  end.

(** [if err := json.Unmarshal(resp, v); err != nil { return nil, err };
    return v, nil]. *)
Definition decoded {A} (r : A * option error) : result A :=
  match r with
  | (_, Some err) => Err err
  | (v, None) => Ok v
  end.

Definition SendBundle (f : FlashbotLaunch) (transactions : slice string)
           (blockNumber : uint64) : Proc (result SendBundleResponse.t) :=
  if (len transactions <? 1)%nat then ret (Err errorTransaction)
  else
    let args := {| SendBundleParams.Transactions := transactions;
                   SendBundleParams.BlockNumber := HextoBlockNumber blockNumber;
                   SendBundleParams.MinTimestamp := 0%Z;
                   SendBundleParams.MaxTimestamp := 0%Z;
                   SendBundleParams.RevertingTxHashes := None |} in
    resp <- requestRPC f MethodSendBundle [PSendBundle args] ;;
    ret (decoded (json_Unmarshal SendBundleResponse.decode resp SendBundleResponse.zero)).

Definition CallBundle (f : FlashbotLaunch) (transaction : slice string)
           (blockNumber : uint64) : Proc (result CallBundleResponse.t) :=
  if (len transaction <? 1)%nat then ret (Err errorTransaction)
  else
    let args := {| CallBundleParams.Transactions := transaction;
                   CallBundleParams.BlockNumber := HextoBlockNumber blockNumber;
                   CallBundleParams.StateBlockNumber := "latest";
                   CallBundleParams.Timestamp := 1615920932%Z |} in
    resp <- requestRPC f MethodCallBundle [PCallBundle args] ;;
    ret (decoded (json_Unmarshal CallBundleResponse.decode resp CallBundleResponse.zero)).

Definition SendPrivateTransaction (f : FlashbotLaunch) (tx : string)
           (maxBlockNumber : string) : Proc (result SendPrivateTxResponse.t) :=
  let args := {| SendPrivateTx.Transaction := tx;
                 SendPrivateTx.MaxBlockNumber := maxBlockNumber;
                 SendPrivateTx.Preferences := None |} in
  resp <- requestRPC f MethodSendPrivateTransaction [PSendPrivateTx args] ;;
  ret (decoded (json_Unmarshal SendPrivateTxResponse.decode resp SendPrivateTxResponse.zero)).

Definition GetUserStats (f : FlashbotLaunch) (blockNumber : uint64)
  : Proc (result UserStatsResponse.t) :=
  resp <- requestRPC f MethodGetUserStats [PUint64 blockNumber] ;;
  ret (decoded (json_Unmarshal UserStatsResponse.decode resp UserStatsResponse.zero)).

End Package.

(** ** Flashbot.go

    The earlier revision of the file has the same [SendBundle], [GetUserStats],
    [requestRPC], [flashbotHeader], [HexToECDSA] and [RelayDefaultRPC]; there
    [HextoBlockNumber] is called [WrapperBlockNumber], [requestRPC] and
    [GetUserStats] also print to the standard output (which is not an event
    here), and [New] reads another variable. *)

Module FlashbotGo.

Module SendBundleResponse.
Record t : Type := {
  ID : N;                          (* uint, `json:"id"` *)
  Version : string;                (* `json:"jsonrpc"` *)
  Result : option bundleResult.t;  (* *bundleResult, `json:"result"` *)
  Raw : string;
  StatusCode : Z                   (* int *)
}.
Definition zero : t := Build_t 0%N "" None "" 0%Z.
Definition fields : list (string * dec t) :=
  [("id", field ID (fun v s => let '(Build_t _ b c d e) := s in Build_t v b c d e)
            (uint_ "uint"));
   ("jsonrpc", field Version (fun v s => let '(Build_t a _ c d e) := s in Build_t a v c d e)
                 string_);
   ("result", field Result (fun v s => let '(Build_t a b _ d e) := s in Build_t a b v d e)
                (ptr bundleResult.zero bundleResult.decode));
   ("Raw", field Raw (fun v s => let '(Build_t a b c _ e) := s in Build_t a b c v e) string_);
   ("StatusCode", field StatusCode
                    (fun v s => let '(Build_t a b c d _) := s in Build_t a b c d v)
                    (int_ "int"))].
Definition decode : dec t := struct_ fields "flashbot.SendBundleResponse".
End SendBundleResponse.

Definition New {libs : Collaborators} (getenv : string -> string) (relayRPC : string)
  : Proc FlashbotLaunch :=
  let '(rpc, _) := RelayDefaultRPC relayRPC in
  let privateKey := getenv "PrivateKey" in
  if String.eqb privateKey "" then log_Fatal
  else
    key <- HexToECDSA privateKey ;;
    ret {| Rpc := rpc; Key := key |}.

Definition SendBundle {libs : Collaborators} (f : FlashbotLaunch)
           (transactions : slice string) (blockNumber : uint64)
  : Proc (result SendBundleResponse.t) :=
  if (len transactions <? 1)%nat then ret (Err errorTransaction)
  else
    let params := {| SendBundleParams.Transactions := transactions;
                     SendBundleParams.BlockNumber := WrapperBlockNumber blockNumber;
                     SendBundleParams.MinTimestamp := 0%Z;
                     SendBundleParams.MaxTimestamp := 0%Z;
                     SendBundleParams.RevertingTxHashes := None |} in
    resp <- requestRPC f MethodSendBundle [PSendBundle params] ;;
    ret (decoded (json_Unmarshal SendBundleResponse.decode resp SendBundleResponse.zero)).

End FlashbotGo.

(** ** Stand-ins for the libraries, to run the package on concrete inputs

    The relay is played by a fixed answer of the transport; the encoder writes
    compact JSON text (strings without escapes) and the reader inverts it on
    the values it is given; keys are numbers and the cryptographic functions
    are simple byte functions. *)

Module Stub.

Definition dq : ascii := ascii_of_nat 34.

Definition quote (s : string) : string := String dq (s +++ String dq "").

Definition decimal (z : Z) : string :=
  match z with
  | Zneg p => "-" +++ strconv.FormatUint (Npos p) 10
  | _ => strconv.FormatUint (Z.to_N z) 10
  end.

Fixpoint print (j : json) : string :=
  match j with
  | JNull => "null"
  | JBool true => "true"
  | JBool false => "false"
  | JNum (Int z) => decimal z
  | JNum (NonInt literal) => literal
  | JStr s => quote s
  | JArr l =>
      "[" +++ (fix items (l : list json) : string :=
                 match l with
                 | [] => ""
                 | x :: r =>
                     match r with
                     | [] => print x
                     | _ => print x +++ "," +++ items r
                     end
                 end) l +++ "]"
  | JObj ms =>
      "{" +++ (fix members (ms : list (string * json)) : string :=
                 match ms with
                 | [] => ""
                 | (k, v) :: r =>
                     match r with
                     | [] => quote k +++ ":" +++ print v
                     | _ => quote k +++ ":" +++ print v +++ "," +++ members r
                     end
                 end) ms +++ "}"
  end.

(** The reader inverts the writer on the values it is given, and rejects any
    other text. *)
Definition scan (known : list json) (data : bytes) : option json :=
  find (fun j => String.eqb (string_of_list_byte data) (print j)) known.

Definition libs (answer : result http.Response) (known : list json) : Collaborators :=
  {| PrivateKey := N;
     crypto_Keccak256 := fun data => firstn 4 data;
     crypto_Sign := fun digestHash prv =>
                      if (prv =? 0)%N then Err (LibraryError "invalid private key")
                      else Ok (rev (firstn 4 digestHash));
     crypto_PubkeyToAddress_Hex := fun prv => hexutil.EncodeUint64 prv;
     crypto_HexToECDSA := fun hexkey =>
                            if String.eqb hexkey "01" then Ok 1%N
                            else Err (LibraryError "invalid hex character");
     json_encode := fun j => Ok (list_byte_of_string (print j));
     json_scan := scan known;
     url_Parse_ok := fun _ => true;
     client_Do := fun _ => answer |}.

(** The relay answers with a JSON-RPC error object. *)
Definition errorObject : json :=
  JObj [("error", JObj [("code", JNum (Int (-32000))); ("message", JStr "bundle too large")])].

Definition errorAnswer : http.Response :=
  {| http.StatusCode := 200;
     http.ResponseBody := list_byte_of_string (print errorObject) |}.

Definition relayRejects : Collaborators := libs (Ok errorAnswer) [errorObject].

(** The network is down. *)
Definition networkDown : Collaborators :=
  libs (Err (LibraryError "dial tcp: connection refused")) [].

(** The relay accepts a bundle. *)
Definition acceptedObject : json :=
  JObj [("jsonrpc", JStr "2.0"); ("id", JNum (Int 1));
        ("result", JObj [("bundleHash", JStr "0x2228f5d8")])].

Definition relayAccepts : Collaborators :=
  libs (Ok {| http.StatusCode := 200;
              http.ResponseBody := list_byte_of_string (print acceptedObject) |})
       [acceptedObject].

Definition client (l : Collaborators) (key : @PrivateKey l) : @FlashbotLaunch l :=
  {| Rpc := "https://relay.flashbots.net"; Key := key |}.

End Stub.

(** ** What a call does, step by step *)

Section Runs.

Context {libs : Collaborators}.

(** The hash [requestRPC] hands to [crypto.Sign] for a payload. *)
Definition messageHash (payload : bytes) : bytes :=
  TextHash (list_byte_of_string (hexutil.Encode (crypto_Keccak256 payload))).

(** The signature bytes the header is made of: nil when signing failed. *)
Definition signatureOf (f : FlashbotLaunch) (payload : bytes) : bytes :=
  match crypto_Sign (messageHash payload) (Key f) with
  | Ok sig => sig
  | Err _ => []
  end.

(** The request [requestRPC] hands to [client.Do] for a payload. *)
Definition postedRequest (f : FlashbotLaunch) (payload : bytes) : http.Request :=
  {| http.Method := "POST";
     http.URL := Rpc f;
     http.Header := [("Content-Type", "application/json");
                     ("Accept", "application/json");
                     ("X-Flashbots-Signature",
                      flashbotHeader (signatureOf f payload) (Key f))];
     http.Body := payload |}.

(** The JSON value of the envelope for a method and its arguments. *)
Definition envelope (Method : string) (params : list param) : json :=
  marshal.metaRequestParams_json (requestArgs Method (variadic params)).

(** How a call of a gateway ends for its caller. *)
Inductive Ending : Type :=
| ErrorValue (err : error)   (* return nil, err *)
| ResponseValue.             (* return resp, nil *)

Definition ending {A} (r : result A) : Ending :=
  match r with
  | Ok _ => ResponseValue
  | Err err => ErrorValue err
  end.

(** The calls of the gateway methods. *)
Inductive Call : Type :=
| CallSendBundle (transactions : slice string) (blockNumber : uint64)
| CallCallBundle (transaction : slice string) (blockNumber : uint64)
| CallSendPrivateTransaction (tx maxBlockNumber : string)
| CallGetUserStats (blockNumber : uint64).

Definition perform (f : FlashbotLaunch) (c : Call) : Proc Ending :=
  match c with
  | CallSendBundle transactions blockNumber =>
      r <- SendBundle f transactions blockNumber ;; ret (ending r)
  | CallCallBundle transaction blockNumber =>
      r <- CallBundle f transaction blockNumber ;; ret (ending r)
  | CallSendPrivateTransaction tx maxBlockNumber =>
      r <- SendPrivateTransaction f tx maxBlockNumber ;; ret (ending r)
  | CallGetUserStats blockNumber =>
      r <- GetUserStats f blockNumber ;; ret (ending r)
  end.

(** How decoding the reply of a call ends. *)
Definition replyEnding (c : Call) (reply : bytes) : Ending :=
  match c with
  | CallSendBundle _ _ =>
      ending (decoded (json_Unmarshal SendBundleResponse.decode reply SendBundleResponse.zero))
  | CallCallBundle _ _ =>
      ending (decoded (json_Unmarshal CallBundleResponse.decode reply CallBundleResponse.zero))
  | CallSendPrivateTransaction _ _ =>
      ending (decoded (json_Unmarshal SendPrivateTxResponse.decode reply
                         SendPrivateTxResponse.zero))
  | CallGetUserStats _ =>
      ending (decoded (json_Unmarshal UserStatsResponse.decode reply UserStatsResponse.zero))
  end.

(** The method and the argument a call hands to [requestRPC], when its
    precondition lets it through. *)
Definition dispatched (c : Call) : option (string * param) :=
  match c with
  | CallSendBundle transactions blockNumber =>
      if (len transactions <? 1)%nat then None
      else Some (MethodSendBundle,
                 PSendBundle
                   {| SendBundleParams.Transactions := transactions;
                      SendBundleParams.BlockNumber := HextoBlockNumber blockNumber;
                      SendBundleParams.MinTimestamp := 0%Z;
                      SendBundleParams.MaxTimestamp := 0%Z;
                      SendBundleParams.RevertingTxHashes := None |})
  | CallCallBundle transaction blockNumber =>
      if (len transaction <? 1)%nat then None
      else Some (MethodCallBundle,
                 PCallBundle
                   {| CallBundleParams.Transactions := transaction;
                      CallBundleParams.BlockNumber := HextoBlockNumber blockNumber;
                      CallBundleParams.StateBlockNumber := "latest";
                      CallBundleParams.Timestamp := 1615920932%Z |})
  | CallSendPrivateTransaction tx maxBlockNumber =>
      Some (MethodSendPrivateTransaction,
            PSendPrivateTx
              {| SendPrivateTx.Transaction := tx;
                 SendPrivateTx.MaxBlockNumber := maxBlockNumber;
                 SendPrivateTx.Preferences := None |})
  | CallGetUserStats blockNumber =>
      Some (MethodGetUserStats, PUint64 blockNumber)
  end.

End Runs.

(** ** The signer as the specification words it (section 4.3)

    [digest = keccak256(serializedEnvelopeBytes)]; the digest hex-encoded to
    an ASCII string; [messageHash = personalMessageHash(hexEncodedDigestBytes)],
    the hash of the fixed domain separator, then the byte length of the input
    in decimal, then the input; a recoverable signature of [messageHash] with
    the identity's key; the header value ["<derivedAddressHex>:<hexEncodedSignature>"].
    A signing failure is [None]. *)

Module Spec.
Section Signer.

Context {libs : Collaborators}.

Definition domainSeparator : string :=
  String (ascii_of_nat 25) "Ethereum Signed Message:" +++ String (ascii_of_nat 10) "".

Definition personalMessageHash (input : string) : bytes :=
  crypto_Keccak256
    (list_byte_of_string
       (domainSeparator +++ strconv.Itoa (String.length input) +++ input)).

Definition headerValue (serializedEnvelopeBytes : bytes) (signingKey : PrivateKey)
  : option string :=
  let digest := crypto_Keccak256 serializedEnvelopeBytes in
  let hexEncodedDigest := hexutil.Encode digest in
  let messageHash := personalMessageHash hexEncodedDigest in
  match crypto_Sign messageHash signingKey with
  | Ok signature =>
      Some (crypto_PubkeyToAddress_Hex signingKey +++ ":" +++ hexutil.Encode signature)
  | Err _ => None
  end.

End Signer.
End Spec.

(** ** What [json.Marshal] makes of the response models

    The JSON value of each response struct, member by member as its tags
    name them: a nil pointer and a nil slice are [null], a member tagged
    [omitempty] is left out when empty, a field without a tag goes under its
    own name. These are the replies the decoders are run on. *)

Module marshal_reply.

Definition uint (n : N) : json := JNum (Int (Z.of_N n)).

Definition pointer {A} (to_json : A -> json) (p : option A) : json :=
  match p with
  | None => JNull
  | Some v => to_json v
  end.

Definition slice_json {A} (to_json : A -> json) (s : slice A) : json :=
  match s with
  | None => JNull
  | Some l => JArr (map to_json l)
  end.

Definition errorResult_json (r : errorResult.t) : json :=
  JObj [("code", marshal.int (errorResult.Code r));
        ("message", JStr (errorResult.Message r))].

Definition bundleResult_json (r : bundleResult.t) : json :=
  JObj [("bundleHash", JStr (bundleResult.BundleHash r))].

Definition txResult_json (r : txResult.t) : json :=
  JObj ([("coinbaseDiff", JStr (txResult.CoinbaseDiff r));
         ("ethSentToCoinbase", JStr (txResult.EthSentToCoinbase r));
         ("fromAddress", JStr (txResult.FromAddress r));
         ("gasFees", JStr (txResult.GasFees r));
         ("gasPrice", JStr (txResult.GasPrice r));
         ("gasUsed", uint (txResult.GasUsed r));
         ("toAddress", JStr (txResult.ToAddress r));
         ("txHash", JStr (txResult.TxHash r));
         ("value", JStr (txResult.Value r))]
        ++ marshal.omitempty (String.eqb (txResult.Error r) "") "error"
             (JStr (txResult.Error r))).

Definition callResult_json (r : callResult.t) : json :=
  JObj [("bundleGasPrice", JStr (callResult.BundleGasPrice r));
        ("bundleHash", JStr (callResult.BundleHash r));
        ("coinbaseDiff", JStr (callResult.CoinbaseDiff r));
        ("ethSentToCoinbase", JStr (callResult.EthSentToCoinbase r));
        ("gasFees", JStr (callResult.GasFees r));
        ("results", slice_json txResult_json (callResult.Results r));
        ("stateBlockNumber", uint (callResult.StateBlockNumber r));
        ("totalGasUsed", uint (callResult.TotalGasUsed r))].

Definition userStats_json (r : userStats.t) : json :=
  JObj [("is_high_priority", JBool (userStats.IsHighPriority r));
        ("all_time_miner_payments", JStr (userStats.AllTimeMinerPayments r));
        ("all_time_gas_simulated", JStr (userStats.AllTimeGasSimulated r));
        ("last_7d_miner_payments", JStr (userStats.Last7dMinerPayments r));
        ("last_7d_gas_simulated", JStr (userStats.Last7dGasSimulated r));
        ("last_1d_miner_payments", JStr (userStats.Last1dMinerPayments r));
        ("last_1d_gas_simulated", JStr (userStats.Last1dGasSimulated r))].

Definition SendBundleResponse_json (r : SendBundleResponse.t) : json :=
  JObj [("id", uint (SendBundleResponse.ID r));
        ("jsonrpc", JStr (SendBundleResponse.Version r));
        ("result", pointer bundleResult_json (SendBundleResponse.Result r))].

Definition CallBundleResponse_json (r : CallBundleResponse.t) : json :=
  JObj [("id", uint (CallBundleResponse.ID r));
        ("jsonrpc", JStr (CallBundleResponse.Version r));
        ("result", pointer callResult_json (CallBundleResponse.Result r));
        ("error", pointer errorResult_json (CallBundleResponse.Error r));
        ("Raw", JStr (CallBundleResponse.Raw r));
        ("StatusCode", marshal.int (CallBundleResponse.StatusCode r))].

Definition SendPrivateTxResponse_json (r : SendPrivateTxResponse.t) : json :=
  JObj [("jsonrpc", JStr (SendPrivateTxResponse.JsonRPC r));
        ("id", marshal.int (SendPrivateTxResponse.Id r));
        ("result", JStr (SendPrivateTxResponse.Result r))].

Definition UserStatsResponse_json (r : UserStatsResponse.t) : json :=
  JObj [("id", uint (UserStatsResponse.ID r));
        ("jsonrpc", JStr (UserStatsResponse.Version r));
        ("result", pointer userStats_json (UserStatsResponse.Result r))].

End marshal_reply.

(** The values of the integer fields that fit their Go types. *)

Definition uint64_ok (n : N) : bool := (Z.of_N n <=? uint64_max)%Z.

Definition int64_ok (z : Z) : bool := ((int64_min <=? z) && (z <=? int64_max))%Z.

Definition txResult_ok (r : txResult.t) : bool := uint64_ok (txResult.GasUsed r).

Definition callResult_ok (r : callResult.t) : bool :=
  forallb txResult_ok (elems (callResult.Results r))
  && uint64_ok (callResult.StateBlockNumber r)
  && uint64_ok (callResult.TotalGasUsed r).

Definition CallBundleResponse_ok (r : CallBundleResponse.t) : bool :=
  uint64_ok (CallBundleResponse.ID r)
  && match CallBundleResponse.Result r with
     | None => true
     | Some c => callResult_ok c
     end
  && match CallBundleResponse.Error r with
     | None => true
     | Some e => int64_ok (errorResult.Code e)
     end
  && int64_ok (CallBundleResponse.StatusCode r).

(** The member names, folded, that select a field of some response. *)
Definition knownNames : list string :=
  ["ID"; "JSONRPC"; "RESULT"; "ERROR"; "RAW"; "STATUSCODE"].

Definition unknownMember (k : string) : bool :=
  negb (existsb (String.eqb (foldName k)) knownNames).

(** ** JSON-RPC error responses

    The reply JSON-RPC 2.0 prescribes for a call that failed: an object with
    the members "jsonrpc" (a string), "id" (null, a number or a string; the
    requests of this package carry the number 1) and "error", an object that
    holds an integer "code", a string "message" and possibly more (such as
    "data"). The members may stand in any order, each may be missing but
    "error", and members that select no field of the response structs may
    stand among them. Numbers are the integers the fields of the response
    structs hold: a code of 64 bits, an id from 0 to 2^63-1. *)
Definition isCodeMember (code : Z) (kv : string * json) : bool :=
  String.eqb (fst kv) "code"
  && match snd kv with
     | JNum (Int c) => (c =? code)%Z
     | _ => false
     end.

Definition isMessageMember (message : string) (kv : string * json) : bool :=
  String.eqb (fst kv) "message"
  && match snd kv with
     | JStr m => String.eqb m message
     | _ => false
     end.

Definition unknownErrorMember (k : string) : bool :=
  negb (existsb (String.eqb (foldName k)) ["CODE"; "MESSAGE"]).

Definition errorObjectMember (code : Z) (message : string) (kv : string * json) : bool :=
  isCodeMember code kv || isMessageMember message kv || unknownErrorMember (fst kv).

Definition isErrorObject (code : Z) (message : string) (v : json) : bool :=
  match v with
  | JObj ems =>
      int64_ok code
      && forallb (errorObjectMember code message) ems
      && existsb (isCodeMember code) ems
      && existsb (isMessageMember message) ems
  | _ => false
  end.

Definition isErrorMember (kv : string * json) : bool := String.eqb (fst kv) "error".

Definition isStringId (kv : string * json) : bool :=
  String.eqb (fst kv) "id"
  && match snd kv with
     | JStr _ => true
     | _ => false
     end.

Definition replyMember (code : Z) (message : string) (kv : string * json) : bool :=
  if String.eqb (fst kv) "jsonrpc" then
    match snd kv with
    | JStr _ => true
    | _ => false
    end
  else if String.eqb (fst kv) "id" then
    match snd kv with
    | JNull | JStr _ => true
    | JNum (Int z) => ((0 <=? z) && (z <=? int64_max))%Z
    | _ => false
    end
  else if String.eqb (fst kv) "error" then isErrorObject code message (snd kv)
  else unknownMember (fst kv).

(** An error response that carries [code] and [message]. *)
Definition isErrorResponse (code : Z) (message : string) (reply : json) : bool :=
  match reply with
  | JObj ms => forallb (replyMember code message) ms && existsb isErrorMember ms
  | _ => false
  end.

Definition hasStringId (reply : json) : bool :=
  match reply with
  | JObj ms => existsb isStringId ms
  | _ => false
  end.

(** The members of an error response whose id is no string. *)
Definition storable (code : Z) (message : string) (kv : string * json) : Prop :=
  replyMember code message kv = true /\ isStringId kv = false.

(** The relay's error object with the members of a full JSON-RPC response,
    the error first and a "data" member beside code and message. *)
Definition fullErrorObject (id : json) : json :=
  JObj [("error", JObj [("message", JStr "bundle too large");
                        ("data", JArr [JStr "0x01"]);
                        ("code", JNum (Int (-32000)))]);
        ("id", id);
        ("jsonrpc", JStr "2.0")].

Definition fullErrorAnswer (id : json) : http.Response :=
  {| http.StatusCode := 200;
     http.ResponseBody := list_byte_of_string (Stub.print (fullErrorObject id)) |}.

(** A stand-in whose hash has the 32 bytes of keccak256: the data cut or
    padded with zero bytes. *)
Definition pad32 (data : bytes) : bytes :=
  firstn 32 (data ++ repeat "000"%byte 32).

Definition libs32 (answer : result http.Response) (known : list json) : Collaborators :=
  {| PrivateKey := N;
     crypto_Keccak256 := pad32;
     crypto_Sign := fun digestHash prv =>
                      if (prv =? 0)%N then Err (LibraryError "invalid private key")
                      else Ok (rev digestHash);
     crypto_PubkeyToAddress_Hex := fun prv => hexutil.EncodeUint64 prv;
     crypto_HexToECDSA := fun hexkey =>
                            if String.eqb hexkey "01" then Ok 1%N
                            else Err (LibraryError "invalid hex character");
     json_encode := fun j => Ok (list_byte_of_string (Stub.print j));
     json_scan := Stub.scan known;
     url_Parse_ok := fun url => String.prefix "http" url;
     client_Do := fun _ => answer |}.

(** * Properties *)

Unset Implicit Arguments.

Example EncodeUint64_0 : hexutil.EncodeUint64 0%N = "0x0".
Proof. reflexivity. Qed.

Example EncodeUint64_255 : hexutil.EncodeUint64 255%N = "0xff".
Proof. reflexivity. Qed.

Example EncodeUint64_max : hexutil.EncodeUint64 18446744073709551615%N = "0xffffffffffffffff".
Proof. reflexivity. Qed.

Example Itoa_66 : strconv.Itoa 66 = "66".
Proof. reflexivity. Qed.

Example canonical_content_type : http.CanonicalMIMEHeaderKey "content-type" = "Content-Type".
Proof. reflexivity. Qed.

Example canonical_signature :
  http.CanonicalMIMEHeaderKey "X-Flashbots-Signature" = "X-Flashbots-Signature".
Proof. reflexivity. Qed.

Lemma length_list_byte_of_string (s : string) :
  List.length (list_byte_of_string s) = String.length s.
Proof.
  induction s as [| c s IH]; [reflexivity |].
  change (list_byte_of_string (String c s))
    with (byte_of_ascii c :: list_byte_of_string s).
  cbn [List.length String.length]. now rewrite IH.
Qed.

(** ** The block number format *)

Section Hex.

Lemma hexDigit_digit (d : N) :
  (d < 16)%N -> hexutil.hexDigit (strconv.digit d) = Some d.
Proof.
  intros Hd.
  destruct d as [| p]; [reflexivity |].
  do 4 (destruct p as [p | p |]; try reflexivity); lia.
Qed.

Lemma digit_not_zero (d : N) :
  (0 < d < 16)%N -> strconv.digit d <> "0"%char.
Proof.
  intros Hd.
  destruct d as [| p]; [lia |].
  do 4 (destruct p as [p | p |]; try discriminate); lia.
Qed.

(** The digits [formatBits] writes in front of [acc] denote [u]. *)
Lemma parseHex_formatBits (fuel : nat) :
  forall (u : N) (acc : string),
    (u < 2 ^ N.of_nat (S fuel))%N ->
    hexutil.parseHex 0 (strconv.formatBits fuel 16 u acc) = hexutil.parseHex u acc.
Proof.
  induction fuel as [| fuel IH]; intros u acc Hu.
  - cbn [strconv.formatBits hexutil.parseHex].
    change (2 ^ N.of_nat 1)%N with 2%N in Hu.
    rewrite N.mod_small by lia.
    rewrite hexDigit_digit by lia. reflexivity.
  - cbn [strconv.formatBits].
    assert (Hdiv : (u = 16 * (u / 16) + u mod 16)%N) by (apply N.div_mod; discriminate).
    assert (Hmod : (u mod 16 < 16)%N) by (apply N.mod_lt; discriminate).
    destruct (N.eqb_spec (u / 16) 0) as [Hq | Hq].
    + cbn [hexutil.parseHex]. rewrite hexDigit_digit by exact Hmod.
      f_equal. lia.
    + rewrite IH.
      * cbn [hexutil.parseHex]. rewrite hexDigit_digit by exact Hmod.
        f_equal. lia.
      * apply N.Div0.div_lt_upper_bound.
        replace (N.of_nat (S (S fuel))) with (N.succ (N.of_nat (S fuel))) in Hu by lia.
        rewrite N.pow_succ_r' in Hu. lia.
Qed.

(** The first digit [formatBits] writes is not 0, unless the number is. *)
Lemma formatBits_head (fuel : nat) :
  forall (u : N) (acc : string),
    (0 < u < 2 ^ N.of_nat (S fuel))%N ->
    exists c r, strconv.formatBits fuel 16 u acc = String c r /\ c <> "0"%char.
Proof.
  induction fuel as [| fuel IH]; intros u acc Hu.
  - cbn [strconv.formatBits].
    change (2 ^ N.of_nat 1)%N with 2%N in Hu.
    eexists _, _. split; [reflexivity |].
    rewrite N.mod_small by lia. apply digit_not_zero. lia.
  - cbn [strconv.formatBits].
    assert (Hdiv : (u = 16 * (u / 16) + u mod 16)%N) by (apply N.div_mod; discriminate).
    assert (Hmod : (u mod 16 < 16)%N) by (apply N.mod_lt; discriminate).
    destruct (N.eqb_spec (u / 16) 0) as [Hq | Hq].
    + eexists _, _. split; [reflexivity |]. apply digit_not_zero. lia.
    + apply IH. split; [lia |].
      apply N.Div0.div_lt_upper_bound.
      replace (N.of_nat (S (S fuel))) with (N.succ (N.of_nat (S fuel))) in Hu by lia.
      rewrite N.pow_succ_r' in Hu. lia.
Qed.

Lemma log2_fuel (u : N) : (u < 2 ^ N.of_nat (S (N.to_nat (N.log2 u))))%N.
Proof.
  replace (N.of_nat (S (N.to_nat (N.log2 u)))) with (N.succ (N.log2 u)) by lia.
  destruct u as [| p]; [reflexivity |].
  apply N.log2_spec. reflexivity.
Qed.

(** [HextoBlockNumber] writes the format [hexutil.DecodeUint64] reads: the
    prefix, then the digits of the number, most significant first and without
    a leading zero. *)
Lemma HextoBlockNumber_minimal_hex (blockNumber : uint64) :
  (blockNumber <= 18446744073709551615)%N ->
  hexutil.DecodeUint64 (HextoBlockNumber blockNumber) = Some blockNumber.
Proof.
  intros Hmax.
  unfold HextoBlockNumber, hexutil.EncodeUint64, strconv.FormatUint.
  destruct (N.eq_dec blockNumber 0) as [-> | Hnz]; [reflexivity |].
  pose proof (log2_fuel blockNumber) as Hfuel.
  destruct (@formatBits_head (N.to_nat (N.log2 blockNumber)) blockNumber "")
    as (c & r & Hdigits & Hc); [lia |].
  pose proof (@parseHex_formatBits (N.to_nat (N.log2 blockNumber)) blockNumber "" Hfuel)
    as Hparse.
  rewrite Hdigits in Hparse |- *.
  cbn [String.append hexutil.DecodeUint64 Ascii.eqb Bool.eqb orb].
  assert (Hraw : match String c r with
                 | EmptyString => None
                 | String "0" (String _ _) => None
                 | _ => match hexutil.parseHex 0 (String c r) with
                        | Some n => if (n <=? 18446744073709551615)%N then Some n else None
                        | None => None
                        end
                 end = Some blockNumber).
  { rewrite Hparse. cbn [hexutil.parseHex].
    apply N.leb_le in Hmax. rewrite Hmax.
    destruct c as [[] [] [] [] [] [] [] []]; try reflexivity;
      destruct r; try reflexivity; now contradiction Hc. }
  exact Hraw.
Qed.

Lemma WrapperBlockNumber_minimal_hex (blockNumber : uint64) :
  (blockNumber <= 18446744073709551615)%N ->
  hexutil.DecodeUint64 (WrapperBlockNumber blockNumber) = Some blockNumber.
Proof.
  exact (@HextoBlockNumber_minimal_hex blockNumber).
Qed.

End Hex.

Section Dispatch.

Context {libs : Collaborators}.

Lemma append_self {A} (l : list A) : elems (append (variadic l) (variadic l)) = l ++ l.
Proof.
  destruct l as [| a l]; reflexivity.
Qed.

Lemma envelope_members Method params :
  envelope Method params =
  JObj [("jsonrpc", JStr "2.0");
        ("id", JNum (Int 1));
        ("method", JStr Method);
        ("params", match params with
                   | [] => JNull
                   | _ => JArr (map marshal.param_json (params ++ params))
                   end)].
Proof.
  destruct params as [| p r]; reflexivity.
Qed.

(** One run of [requestRPC]: the process ends when the envelope cannot be
    serialized, when the URL is refused, and when the transport fails; a
    failure of [crypto.Sign] changes the header only. *)
Lemma requestRPC_run f Method params t :
  requestRPC f Method params t =
  match json_encode (envelope Method params) with
  | Err _ => (Exited 1%Z, t)
  | Ok payload =>
      if url_Parse_ok (Rpc f)
      then (match client_Do (postedRequest f payload) with
            | Err _ => Exited 1%Z
            | Ok resp => Returned (http.ResponseBody resp)
            end,
            t ++ [Signed (messageHash payload); Posted (postedRequest f payload)])
      else (Exited 1%Z, t)
  end.
Proof.
  unfold requestRPC, json_Marshal, envelope, http_NewRequest.
  destruct (json_encode _) as [payload | e]; [| reflexivity].
  destruct (url_Parse_ok (Rpc f)); [| reflexivity].
  unfold bind, Sign, Do, emit, postedRequest, signatureOf, messageHash, http.Header_Add.
  cbn [http.Header http.Method http.URL http.Body app].
  change (http.CanonicalMIMEHeaderKey "content-type") with "Content-Type".
  change (http.CanonicalMIMEHeaderKey "Accept") with "Accept".
  change (http.CanonicalMIMEHeaderKey "X-Flashbots-Signature") with "X-Flashbots-Signature".
  rewrite <- app_assoc. cbn [app].
  destruct (client_Do _) as [resp | e]; reflexivity.
Qed.

(** What [requestRPC] posts: the serialized envelope, signed, and nothing
    else. *)
Lemma requestRPC_posted f Method params t evs req :
  snd (requestRPC f Method params t) = t ++ evs ->
  In (Posted req) evs ->
  json_encode (envelope Method params) = Ok (http.Body req)
  /\ req = postedRequest f (http.Body req)
  /\ evs = [Signed (messageHash (http.Body req)); Posted req].
Proof.
  intros Hrun Hin. rewrite requestRPC_run in Hrun.
  destruct (json_encode (envelope Method params)) as [payload | e].
  - destruct (url_Parse_ok (Rpc f)).
    + cbn [snd] in Hrun. apply app_inv_head in Hrun. subst evs.
      destruct Hin as [Heq | [Heq | []]]; [discriminate Heq |].
      injection Heq as <-. repeat split.
    + cbn [snd] in Hrun. rewrite <- (app_nil_r t) in Hrun at 1.
      apply app_inv_head in Hrun. subst evs. destruct Hin.
  - cbn [snd] in Hrun. rewrite <- (app_nil_r t) in Hrun at 1.
    apply app_inv_head in Hrun. subst evs. destruct Hin.
Qed.

(** Decoding the reply adds no work to the trace. *)
Lemma gateway_trace {A} (d : dec A) (zero : A) f Method params t :
  snd ((resp <- requestRPC f Method params ;;
        ret (decoded (json_Unmarshal d resp zero))) t)
  = snd (requestRPC f Method params t).
Proof.
  unfold bind, ret. destruct (requestRPC f Method params t) as [[resp | status] t'];
    reflexivity.
Qed.

(** A gateway after its precondition: dispatch, then decode the reply. *)
Lemma gateway_run {A} (d : dec A) (zero : A) f Method params t :
  (resp <- requestRPC f Method params ;; ret (decoded (json_Unmarshal d resp zero))) t =
  match json_encode (envelope Method params) with
  | Err _ => (Exited 1%Z, t)
  | Ok payload =>
      if url_Parse_ok (Rpc f)
      then (match client_Do (postedRequest f payload) with
            | Err _ => Exited 1%Z
            | Ok resp =>
                Returned (decoded (json_Unmarshal d (http.ResponseBody resp) zero))
            end,
            t ++ [Signed (messageHash payload); Posted (postedRequest f payload)])
      else (Exited 1%Z, t)
  end.
Proof.
  unfold bind. rewrite requestRPC_run.
  destruct (json_encode _) as [payload | e]; [| reflexivity].
  destruct (url_Parse_ok (Rpc f)); [| reflexivity].
  destruct (client_Do _) as [resp | e]; reflexivity.
Qed.

(** What a gateway posts: the serialized envelope, signed, and nothing else. *)
Lemma posted_body {A} (d : dec A) (zero : A) f Method params t evs req :
  snd ((resp <- requestRPC f Method params ;;
        ret (decoded (json_Unmarshal d resp zero))) t) = t ++ evs ->
  In (Posted req) evs ->
  json_encode (envelope Method params) = Ok (http.Body req)
  /\ req = postedRequest f (http.Body req)
  /\ evs = [Signed (messageHash (http.Body req)); Posted req].
Proof.
  rewrite gateway_trace. apply requestRPC_posted.
Qed.

(** The labels [RelayDefaultRPC] knows, and their endpoints. *)
Lemma RelayDefaultRPC_known netType rpc :
  RelayDefaultRPC netType = (rpc, None) ->
  (netType = "mainnet" \/ netType = "goerli")
  /\ rpc <> ""
  /\ prefix "https://" rpc = true.
Proof.
  unfold RelayDefaultRPC.
  destruct (String.eqb_spec netType "mainnet") as [-> |].
  - intros [= <-]. repeat split; [now left | discriminate].
  - destruct (String.eqb_spec netType "goerli") as [-> |].
    + intros [= <-]. repeat split; [now right | discriminate].
    + intros H. discriminate H.
Qed.

Lemma RelayDefaultRPC_unknown netType :
  netType <> "mainnet" -> netType <> "goerli" ->
  RelayDefaultRPC netType = ("", Some (errNetType netType)).
Proof.
  intros Hmain Hgoerli. unfold RelayDefaultRPC.
  destruct (String.eqb_spec netType "mainnet"); [contradiction |].
  destruct (String.eqb_spec netType "goerli"); [contradiction |].
  reflexivity.
Qed.

End Dispatch.

(** ** The decoders report type errors only *)

Section Typed.

Lemma typed_string : typed string_.
Proof. intros [| b | n | s | l | ms] cur; reflexivity. Qed.

Lemma typed_bool : typed bool_.
Proof. intros [| b | n | s | l | ms] cur; reflexivity. Qed.

Lemma typed_int gotype : typed (int_ gotype).
Proof.
  intros [| b | [z | lit] | s | l | ms] cur; try reflexivity.
  unfold int_. destruct (_ && _)%bool; reflexivity.
Qed.

Lemma typed_uint gotype : typed (uint_ gotype).
Proof.
  intros [| b | [z | lit] | s | l | ms] cur; try reflexivity.
  unfold uint_. destruct (_ && _)%bool; reflexivity.
Qed.

Lemma typed_ptr {A} (zero : A) (d : dec A) : typed d -> typed (ptr zero d).
Proof.
  intros Hd j cur. unfold ptr.
  destruct j; try reflexivity;
    match goal with
    | |- context [d ?j ?c] => specialize (Hd j c); destruct (d j c); exact Hd
    end.
Qed.

Lemma typed_elements {A} (zero : A) (d : dec A) :
  typed d -> forall l cur, forallb isTypeError (snd (elements zero d l cur)) = true.
Proof.
  intros Hd l. induction l as [| j l IH]; intros cur; [reflexivity |].
  cbn [elements].
  specialize (Hd j (hd zero cur)). destruct (d j (hd zero cur)) as [v e].
  specialize (IH (tl cur)). destruct (elements zero d l (tl cur)) as [vs es].
  cbn [snd] in *. rewrite forallb_app, Hd, IH. reflexivity.
Qed.

Lemma typed_slice {A} (zero : A) (d : dec A) gotype :
  typed d -> typed (slice_ zero d gotype).
Proof.
  intros Hd j cur. unfold slice_.
  destruct j as [| b | n | s | l | ms]; try reflexivity.
  pose proof (typed_elements zero d Hd l (elems cur)) as H.
  destruct (elements zero d l (elems cur)); exact H.
Qed.

Lemma typed_field {T A} (get : T -> A) (set : A -> T -> T) (d : dec A) :
  typed d -> typed (field get set d).
Proof.
  intros Hd j cur. unfold field.
  specialize (Hd j (get cur)). destruct (d j (get cur)); exact Hd.
Qed.

Lemma lookup_In {A} (fields : list (string * dec A)) key d :
  lookup fields key = Some d -> In d (map snd fields).
Proof.
  unfold lookup.
  destruct (find _ fields) as [f |] eqn:E1.
  - intros [= <-]. apply find_some in E1. apply in_map, E1.
  - clear E1.
    destruct (find _ fields) as [f |] eqn:E2; [| intros H; discriminate H].
    intros [= <-]. apply find_some in E2. apply in_map, E2.
Qed.

Lemma typed_struct {A} (fields : list (string * dec A)) gotype :
  Forall typed (map snd fields) -> typed (struct_ fields gotype).
Proof.
  intros Hf j cur. unfold struct_.
  destruct j as [| b | n | s | l | ms]; try reflexivity.
  assert (H : forall acc,
             forallb isTypeError (snd acc) = true ->
             forallb isTypeError (snd (fold_left (member fields) ms acc)) = true).
  { induction ms as [| kv ms IH]; intros acc Hacc; [exact Hacc |].
    cbn [fold_left]. apply IH. unfold member.
    destruct (lookup fields (fst kv)) as [d |] eqn:E; [| exact Hacc].
    apply lookup_In in E. rewrite Forall_forall in Hf.
    specialize (Hf d E (snd kv) (fst acc)).
    destruct (d (snd kv) (fst acc)) as [v e]. cbn [snd] in *.
    now rewrite forallb_app, Hacc, Hf. }
  apply H. reflexivity.
Qed.

Create HintDb typed.

Hint Resolve typed_string typed_bool typed_int typed_uint
     typed_ptr typed_slice typed_field typed_struct : typed.

Ltac typed_fields fields :=
  apply typed_struct; unfold fields; cbn [map snd];
  repeat (apply Forall_cons; [auto with typed |]); apply Forall_nil.

Lemma typed_errorResult : typed errorResult.decode.
Proof. typed_fields errorResult.fields. Qed.

Lemma typed_bundleResult : typed bundleResult.decode.
Proof. typed_fields bundleResult.fields. Qed.

Lemma typed_txResult : typed txResult.decode.
Proof. typed_fields txResult.fields. Qed.

Lemma typed_userStats : typed userStats.decode.
Proof. typed_fields userStats.fields. Qed.

Hint Resolve typed_errorResult typed_bundleResult typed_txResult typed_userStats : typed.

Lemma typed_callResult : typed callResult.decode.
Proof. typed_fields callResult.fields. Qed.

Hint Resolve typed_callResult : typed.

Lemma typed_SendBundleResponse : typed SendBundleResponse.decode.
Proof. typed_fields SendBundleResponse.fields. Qed.

Lemma typed_CallBundleResponse : typed CallBundleResponse.decode.
Proof. typed_fields CallBundleResponse.fields. Qed.

Lemma typed_SendPrivateTxResponse : typed SendPrivateTxResponse.decode.
Proof. typed_fields SendPrivateTxResponse.fields. Qed.

Lemma typed_UserStatsResponse : typed UserStatsResponse.decode.
Proof. typed_fields UserStatsResponse.fields. Qed.

End Typed.

Lemma decoded_error {libs : Collaborators} {A} (d : dec A) (reply : bytes) (zero : A) e :
  typed d ->
  decoded (json_Unmarshal d reply zero) = Err e -> isDecodeError e = true.
Proof.
  intros Hd. unfold json_Unmarshal.
  destruct (json_scan reply) as [j |].
  - specialize (Hd j zero). destruct (d j zero) as [v [| e' es]]; cbn in Hd |- *.
    + intros H; discriminate H.
    + intros [= <-]. destruct e'; try discriminate Hd; reflexivity.
  - intros [= <-]. reflexivity.
Qed.

Section Envelope.

Context {libs : Collaborators}.

(** C1. The body of every request [requestRPC] posts is the serialized
    envelope whose [params] is [append(params, params...)]: the arguments of
    the call twice, for every method and every argument list. With the one
    argument every gateway passes, the array has two equal elements; the
    envelope does not carry the parameter list once. *)
Theorem requestRPC_params_doubled f Method params t evs req :
  snd (requestRPC f Method params t) = t ++ evs ->
  In (Posted req) evs ->
  elems (Params (requestArgs Method (variadic params))) = params ++ params
  /\ json_encode
       (JObj [("jsonrpc", JStr "2.0");
              ("id", JNum (Int 1));
              ("method", JStr Method);
              ("params", match params with
                         | [] => JNull
                         | _ => JArr (map marshal.param_json (params ++ params))
                         end)]) = Ok (http.Body req).
Proof.
  intros Hrun Hin. split; [apply append_self |].
  rewrite <- envelope_members.
  exact (proj1 (requestRPC_posted f Method params t evs req Hrun Hin)).
Qed.

(** C2. The value of the signature header of every request [requestRPC]
    posts is the one the specification's pipeline gives for the posted body
    and the client's key: keccak256 of the body, its hex encoding, the
    personal-message hash of the hex string, a signature of that hash (which
    is the hash handed to the signer), and address, colon, hex signature. The
    body is the serialized envelope, and the header is set once. *)
Theorem signature_header_pipeline f Method params t evs req value :
  snd (requestRPC f Method params t) = t ++ evs ->
  In (Posted req) evs ->
  Spec.headerValue (http.Body req) (Key f) = Some value ->
  json_encode (envelope Method params) = Ok (http.Body req)
  /\ In (Signed (Spec.personalMessageHash
                   (hexutil.Encode (crypto_Keccak256 (http.Body req))))) evs
  /\ http.Header_Values "X-Flashbots-Signature" req = [value].
Proof.
  intros Hrun Hin Hspec.
  destruct (requestRPC_posted f Method params t evs req Hrun Hin) as (Henc & Hreq & Hevs).
  assert (Hhash : messageHash (http.Body req)
                  = Spec.personalMessageHash
                      (hexutil.Encode (crypto_Keccak256 (http.Body req)))).
  { unfold messageHash, TextHash, Spec.personalMessageHash.
    rewrite length_list_byte_of_string, string_of_list_byte_of_string.
    reflexivity. }
  split; [exact Henc | split].
  - rewrite Hevs, <- Hhash. left. reflexivity.
  - rewrite Hreq. unfold http.Header_Values, postedRequest.
    change (http.CanonicalMIMEHeaderKey "X-Flashbots-Signature")
      with "X-Flashbots-Signature".
    cbn [http.Header filter fst snd map String.eqb Ascii.eqb Bool.eqb].
    unfold flashbotHeader, signatureOf. rewrite Hhash.
    unfold Spec.headerValue in Hspec.
    destruct (crypto_Sign _ _) as [sig | e]; [| discriminate Hspec].
    injection Hspec as <-. reflexivity.
Qed.

End Envelope.

Section Gateways.

Context {libs : Collaborators}.

(** C5. For every block number, [SendBundle] with an empty transaction
    sequence (nil or of length 0) returns [errorTransaction], and the trace of
    work is the one it started from: nothing was signed, nothing was posted.
    The same holds in both revisions of the file. *)
Theorem SendBundle_empty f transactions blockNumber t :
  len transactions = 0%nat ->
  SendBundle f transactions blockNumber t = (Returned (Err errorTransaction), t)
  /\ FlashbotGo.SendBundle f transactions blockNumber t
     = (Returned (Err errorTransaction), t).
Proof.
  intros Hlen. unfold SendBundle, FlashbotGo.SendBundle. rewrite Hlen. split; reflexivity.
Qed.

(** C9. For every non-empty sequence of transactions, [SendBundle] (in the
    later revision and in the revision of Flashbot.go alike) hands the
    sequence unchanged to the parameters it dispatches, and the one request it
    posts has for its body the serialized envelope whose "txs" array lists the
    elements of the sequence in the order they were given: nothing is added,
    dropped, reordered or rewritten. That request is posted whenever the
    envelope can be serialized and the URL is accepted, and nothing is posted
    otherwise. *)
Theorem SendBundle_preserves_transactions f transactions blockNumber t :
  (1 <= len transactions)%nat ->
  let bundle :=
    JObj [("txs", JArr (map JStr (elems transactions)));
          ("blockNumber", JStr (hexutil.EncodeUint64 blockNumber))] in
  let body :=
    JObj [("jsonrpc", JStr "2.0");
          ("id", JNum (Int 1));
          ("method", JStr "eth_sendBundle");
          ("params", JArr [bundle; bundle])] in
  let posted :=
    match json_encode body with
    | Ok payload =>
        if url_Parse_ok (Rpc f)
        then [Signed (messageHash payload); Posted (postedRequest f payload)]
        else []
    | Err _ => []
    end in
  snd (SendBundle f transactions blockNumber t) = t ++ posted
  /\ snd (FlashbotGo.SendBundle f transactions blockNumber t) = t ++ posted
  /\ (forall req, In (Posted req) posted -> json_encode body = Ok (http.Body req))
  /\ exists args : SendBundleParams.t,
      SendBundleParams.Transactions args = transactions
      /\ marshal.param_json (PSendBundle args) = bundle
      /\ envelope MethodSendBundle [PSendBundle args] = body.
Proof.
  intros Hlen bundle body posted.
  assert (Hguard : (len transactions <? 1)%nat = false) by (apply Nat.ltb_ge; exact Hlen).
  assert (Henv : envelope MethodSendBundle
                   [PSendBundle
                      {| SendBundleParams.Transactions := transactions;
                         SendBundleParams.BlockNumber := hexutil.EncodeUint64 blockNumber;
                         SendBundleParams.MinTimestamp := 0%Z;
                         SendBundleParams.MaxTimestamp := 0%Z;
                         SendBundleParams.RevertingTxHashes := None |}] = body).
  { destruct transactions as [l |]; [reflexivity | cbn in Hlen; lia]. }
  assert (Hrun : forall {A} (d : dec A) (zero : A),
             snd ((resp <- requestRPC f MethodSendBundle
                             [PSendBundle
                                {| SendBundleParams.Transactions := transactions;
                                   SendBundleParams.BlockNumber :=
                                     hexutil.EncodeUint64 blockNumber;
                                   SendBundleParams.MinTimestamp := 0%Z;
                                   SendBundleParams.MaxTimestamp := 0%Z;
                                   SendBundleParams.RevertingTxHashes := None |}] ;;
                   ret (decoded (json_Unmarshal d resp zero))) t) = t ++ posted).
  { intros A d zero. rewrite gateway_trace, requestRPC_run, Henv. unfold posted.
    destruct (json_encode body) as [payload | e]; [| symmetry; apply app_nil_r].
    destruct (url_Parse_ok (Rpc f)); [reflexivity | symmetry; apply app_nil_r]. }
  split; [| split; [| split]].
  - unfold SendBundle. rewrite Hguard. apply Hrun.
  - unfold FlashbotGo.SendBundle. rewrite Hguard. apply Hrun.
  - intros req. unfold posted.
    destruct (json_encode body) as [payload | e]; [| intros []].
    destruct (url_Parse_ok (Rpc f)); [| intros []].
    intros [Heq | [Heq | []]]; [discriminate Heq |].
    injection Heq as <-. reflexivity.
  - exists {| SendBundleParams.Transactions := transactions;
              SendBundleParams.BlockNumber := hexutil.EncodeUint64 blockNumber;
              SendBundleParams.MinTimestamp := 0%Z;
              SendBundleParams.MaxTimestamp := 0%Z;
              SendBundleParams.RevertingTxHashes := None |}.
    split; [reflexivity | split; [| exact Henv]].
    destruct transactions as [l |]; [reflexivity | cbn in Hlen; lia].
Qed.

(** C10. For every transaction list and block number, every request
    [CallBundle] posts is the serialized envelope of parameters whose state
    block is "latest" and whose timestamp is 1615920932; the call has no
    argument for either. *)
Theorem CallBundle_fixed_state_and_timestamp f transaction blockNumber t evs req :
  snd (CallBundle f transaction blockNumber t) = t ++ evs ->
  In (Posted req) evs ->
  let args :=
    JObj [("txs", marshal.strings transaction);
          ("blockNumber", JStr (HextoBlockNumber blockNumber));
          ("stateBlockNumber", JStr "latest");
          ("timestamp", JNum (Int 1615920932))] in
  json_encode (JObj [("jsonrpc", JStr "2.0");
                     ("id", JNum (Int 1));
                     ("method", JStr "eth_callBundle");
                     ("params", JArr [args; args])]) = Ok (http.Body req).
Proof.
  intros Hrun Hin. unfold CallBundle in Hrun.
  destruct (len transaction <? 1)%nat.
  - unfold ret in Hrun. cbn [snd] in Hrun. rewrite <- (app_nil_r t) in Hrun at 1.
    apply app_inv_head in Hrun. subst evs. destruct Hin.
  - exact (proj1 (@posted_body _ _ _ _ _ _ _ _ _ _ Hrun Hin)).
Qed.

(** C6. [GetUserStats] hands its block number to [requestRPC] as the
    [uint64] it received: in every request it posts the block number is a JSON
    number (255 for block 255), not the string [HextoBlockNumber] gives
    ("0xff"), which [SendBundle] and [CallBundle] send. *)
Theorem GetUserStats_block_number_not_hex f blockNumber t evs req :
  snd (GetUserStats f blockNumber t) = t ++ evs ->
  In (Posted req) evs ->
  json_encode (JObj [("jsonrpc", JStr "2.0");
                     ("id", JNum (Int 1));
                     ("method", JStr "flashbots_getUserStats");
                     ("params", JArr [JNum (Int (Z.of_N blockNumber));
                                      JNum (Int (Z.of_N blockNumber))])])
  = Ok (http.Body req)
  /\ JNum (Int (Z.of_N blockNumber)) <> JStr (HextoBlockNumber blockNumber).
Proof.
  intros Hrun Hin. split; [| discriminate].
  exact (proj1 (@posted_body _ _ _ _ _ _ _ _ _ _ Hrun Hin)).
Qed.

(** C7. [SendPrivateTransaction] with the empty string as transaction
    checks nothing: when the envelope serializes and the URL parses, it signs
    and posts the request, whose body is the envelope with "txs" empty. *)
Theorem SendPrivateTransaction_empty_is_dispatched f maxBlockNumber t payload :
  json_encode
    (JObj [("jsonrpc", JStr "2.0");
           ("id", JNum (Int 1));
           ("method", JStr "eth_sendPrivateTransaction");
           ("params",
            JArr [JObj [("txs", JStr "");
                        ("maxBlockNumber", JStr maxBlockNumber);
                        ("preferences", JNull)];
                  JObj [("txs", JStr "");
                        ("maxBlockNumber", JStr maxBlockNumber);
                        ("preferences", JNull)]])]) = Ok payload ->
  url_Parse_ok (Rpc f) = true ->
  snd (SendPrivateTransaction f "" maxBlockNumber t) =
  t ++ [Signed (messageHash payload); Posted (postedRequest f payload)]
  /\ http.Body (postedRequest f payload) = payload
  /\ fst (SendPrivateTransaction f "" maxBlockNumber t) <> Returned (Err errorTransaction).
Proof.
  intros Henc Hurl.
  unfold SendPrivateTransaction. rewrite gateway_run.
  change (envelope MethodSendPrivateTransaction _) with
    (JObj [("jsonrpc", JStr "2.0");
           ("id", JNum (Int 1));
           ("method", JStr "eth_sendPrivateTransaction");
           ("params",
            JArr [JObj [("txs", JStr "");
                        ("maxBlockNumber", JStr maxBlockNumber);
                        ("preferences", JNull)];
                  JObj [("txs", JStr "");
                        ("maxBlockNumber", JStr maxBlockNumber);
                        ("preferences", JNull)]])]).
  rewrite Henc, Hurl. cbn [fst snd].
  split; [reflexivity | split; [reflexivity |]].
  destruct (client_Do _) as [resp | e]; [| intros H; discriminate H].
  intros [= H]. apply decoded_error in H; [discriminate H |].
  apply typed_SendPrivateTxResponse.
Qed.

End Gateways.

Section Replies.

Context {libs : Collaborators}.

(** The reply of a gateway whose request goes through. *)
Lemma gateway_reply {A} (d : dec A) (zero : A) f Method params t payload resp :
  json_encode (envelope Method params) = Ok payload ->
  url_Parse_ok (Rpc f) = true ->
  client_Do (postedRequest f payload) = Ok resp ->
  fst ((reply <- requestRPC f Method params ;;
        ret (decoded (json_Unmarshal d reply zero))) t) =
  Returned (decoded (json_Unmarshal d (http.ResponseBody resp) zero)).
Proof.
  intros Henc Hurl Hdo. rewrite gateway_run, Henc, Hurl, Hdo. reflexivity.
Qed.

End Replies.

Section Failures.

Context {libs : Collaborators}.

(** C4 (amended). How a call of a gateway ends, failure by failure: the
    precondition on the transactions returns [errorTransaction] before any
    work; an envelope that cannot be serialized, a URL that is refused and a
    transport failure end the process with exit status 1; a reply is
    returned decoded, or with the error of [json.Unmarshal], a syntax or a
    type error. *)
Theorem failure_paths f c t :
  perform f c t =
  match dispatched c with
  | None => (Returned (ErrorValue errorTransaction), t)
  | Some (Method, p) =>
      match json_encode (envelope Method [p]) with
      | Err _ => (Exited 1%Z, t)
      | Ok payload =>
          if url_Parse_ok (Rpc f)
          then (match client_Do (postedRequest f payload) with
                | Err _ => Exited 1%Z
                | Ok resp => Returned (replyEnding c (http.ResponseBody resp))
                end,
                t ++ [Signed (messageHash payload); Posted (postedRequest f payload)])
          else (Exited 1%Z, t)
      end
  end
  /\ forall reply err, replyEnding c reply = ErrorValue err -> isDecodeError err = true.
Proof.
  split.
  - destruct c as [txs bn | txs bn | tx mbn | bn];
      unfold perform, dispatched, SendBundle, CallBundle, SendPrivateTransaction,
        GetUserStats;
      try destruct (len txs <? 1)%nat; try reflexivity;
      unfold bind at 1; rewrite gateway_run;
      destruct (json_encode _) as [payload | e]; try reflexivity;
      destruct (url_Parse_ok (Rpc f)); try reflexivity;
      destruct (client_Do _) as [resp | e]; reflexivity.
  - intros reply err.
    destruct c as [txs bn | txs bn | tx mbn | bn]; unfold replyEnding, ending;
      match goal with
      | |- context [decoded ?r] => destruct (decoded r) as [v | e'] eqn:E
      end;
      try (intros H; discriminate H);
      intros [= <-]; apply decoded_error in E; auto.
    + apply typed_SendBundleResponse.
    + apply typed_CallBundleResponse.
    + apply typed_SendPrivateTxResponse.
    + apply typed_UserStatsResponse.
Qed.

End Failures.

Section Construction.

Context {libs : Collaborators}.

(** C8. [RelayDefaultRPC] gives "" and an error for a label that is neither
    "mainnet" nor "goerli"; [New] drops the error, and with a valid key in the
    environment it returns a client whose endpoint is the empty string. *)
Theorem New_unknown_network_empty_endpoint getenv netType hexkey key t :
  netType <> "mainnet" ->
  netType <> "goerli" ->
  hexkey <> "" ->
  getenv "PRIVATE_KEY" = hexkey ->
  getenv "PrivateKey" = hexkey ->
  crypto_HexToECDSA hexkey = Ok key ->
  RelayDefaultRPC netType = ("", Some (errNetType netType))
  /\ New getenv netType t = (Returned {| Rpc := ""; Key := key |}, t)
  /\ FlashbotGo.New getenv netType t = (Returned {| Rpc := ""; Key := key |}, t).
Proof.
  intros Hmain Hgoerli Hne Henv1 Henv2 Hkey.
  pose proof (RelayDefaultRPC_unknown netType Hmain Hgoerli) as Hrpc.
  assert (Hempty : String.eqb hexkey "" = false) by (now apply String.eqb_neq).
  split; [exact Hrpc |].
  unfold New, FlashbotGo.New, HexToECDSA.
  rewrite Hrpc, Henv1, Henv2, Hempty, Hkey. split; reflexivity.
Qed.

End Construction.

(** * The properties on concrete runs *)

Lemma requestRPC_params_doubled_witness :
  let libs := Stub.relayAccepts in
  let f := Stub.client libs 1%N in
  let args := PSendBundle
                {| SendBundleParams.Transactions := Some ["0x01"; "0x02"];
                   SendBundleParams.BlockNumber := "0xff";
                   SendBundleParams.MinTimestamp := 0%Z;
                   SendBundleParams.MaxTimestamp := 0%Z;
                   SendBundleParams.RevertingTxHashes := None |} in
  let object := JObj [("txs", JArr [JStr "0x01"; JStr "0x02"]);
                      ("blockNumber", JStr "0xff")] in
  let body := JObj [("jsonrpc", JStr "2.0");
                    ("id", JNum (Int 1));
                    ("method", JStr "eth_sendBundle");
                    ("params", JArr [object; object])] in
  let payload := list_byte_of_string (Stub.print body) in
  let req := postedRequest f payload in
  let evs := [Signed (messageHash payload); Posted req] in
  (snd (requestRPC f MethodSendBundle [args] []) = [] ++ evs
   /\ In (Posted req) evs)
  /\ elems (Params (requestArgs MethodSendBundle (variadic [args]))) = [args; args]
  /\ json_encode body = Ok (http.Body req).
Proof.
  intros libs f args object body payload req evs.
  assert (H1 : snd (requestRPC f MethodSendBundle [args] []) = [] ++ evs)
    by (vm_compute; reflexivity).
  assert (H2 : In (Posted req) evs) by (right; left; reflexivity).
  split; [exact (conj H1 H2) |].
  exact (@requestRPC_params_doubled libs f MethodSendBundle [args] [] evs req H1 H2).
Defined.

(** A failure of [crypto.Sign] is dropped: the request is posted with an
    empty signature after the address, and the call returns the reply. *)
Example signing_failure_posts_empty_signature :
  let libs := Stub.relayAccepts in
  let f := Stub.client libs 0%N in
  let args := PSendBundle
                {| SendBundleParams.Transactions := Some ["0x01"; "0x02"];
                   SendBundleParams.BlockNumber := "0xff";
                   SendBundleParams.MinTimestamp := 0%Z;
                   SendBundleParams.MaxTimestamp := 0%Z;
                   SendBundleParams.RevertingTxHashes := None |} in
  let payload := list_byte_of_string (Stub.print (envelope MethodSendBundle [args])) in
  crypto_Sign (messageHash payload) (Key f) = Err (LibraryError "invalid private key")
  /\ http.Header_Values "X-Flashbots-Signature" (postedRequest f payload) = ["0x0:0x"]
  /\ SendBundle f (Some ["0x01"; "0x02"]) 255%N [] =
     (Returned (Ok {| SendBundleResponse.ID := 1;
                      SendBundleResponse.Version := "2.0";
                      SendBundleResponse.Result :=
                        Some {| bundleResult.BundleHash := "0x2228f5d8" |} |}),
      [Signed (messageHash payload); Posted (postedRequest f payload)]).
Proof.
  intros libs f args payload. repeat split; vm_compute; reflexivity.
Qed.

Lemma signature_header_pipeline_witness :
  let libs := Stub.relayAccepts in
  let f := Stub.client libs 1%N in
  let payload := list_byte_of_string (Stub.print (envelope MethodGetUserStats [PUint64 255%N])) in
  let req := postedRequest f payload in
  let evs := [Signed (messageHash payload); Posted req] in
  let value := "0x1:0x68744519" in
  (snd (requestRPC f MethodGetUserStats [PUint64 255%N] []) = [] ++ evs
   /\ In (Posted req) evs
   /\ Spec.headerValue (http.Body req) (Key f) = Some value)
  /\ (json_encode (envelope MethodGetUserStats [PUint64 255%N]) = Ok (http.Body req)
      /\ In (Signed (Spec.personalMessageHash
                       (hexutil.Encode (crypto_Keccak256 (http.Body req))))) evs
      /\ http.Header_Values "X-Flashbots-Signature" req = [value]).
Proof.
  intros libs f payload req evs value.
  assert (H1 : snd (requestRPC f MethodGetUserStats [PUint64 255%N] []) = [] ++ evs)
    by (vm_compute; reflexivity).
  assert (H2 : In (Posted req) evs) by (right; left; reflexivity).
  assert (H3 : Spec.headerValue (http.Body req) (Key f) = Some value)
    by (vm_compute; reflexivity).
  split; [exact (conj H1 (conj H2 H3)) |].
  exact (@signature_header_pipeline libs f MethodGetUserStats [PUint64 255%N] [] evs req
           value H1 H2 H3).
Defined.


(** C4, as the specification states it, fails on this run: the transport
    fails and the call of [SendBundle] does not return; the process exits with
    status 1. *)
Lemma transport_failure_exits :
  let libs := Stub.networkDown in
  let f := Stub.client libs 1%N in
  client_Do (postedRequest f
               (list_byte_of_string
                  (Stub.print (envelope MethodSendBundle
                                 [PSendBundle
                                    {| SendBundleParams.Transactions := Some ["0x01"; "0x02"];
                                       SendBundleParams.BlockNumber := "0xff";
                                       SendBundleParams.MinTimestamp := 0%Z;
                                       SendBundleParams.MaxTimestamp := 0%Z;
                                       SendBundleParams.RevertingTxHashes := None |}]))))
  = Err (LibraryError "dial tcp: connection refused")
  /\ fst (SendBundle f (Some ["0x01"; "0x02"]) 255%N []) = Exited 1%Z
  /\ forall r, fst (SendBundle f (Some ["0x01"; "0x02"]) 255%N []) <> Returned r.
Proof.
  intros libs f. split; [reflexivity |].
  assert (H : fst (SendBundle f (Some ["0x01"; "0x02"]) 255%N []) = Exited 1%Z)
    by (vm_compute; reflexivity).
  split; [exact H |].
  intros r. rewrite H. discriminate.
Qed.

Lemma failure_paths_witness :
  let libs := Stub.networkDown in
  let f := Stub.client libs 1%N in
  fst (perform f (CallSendBundle (Some ["0x01"; "0x02"]) 255%N) []) = Exited 1%Z
  /\ perform f (CallSendBundle None 255%N) [] = (Returned (ErrorValue errorTransaction), []).
Proof.
  intros libs f. split.
  - rewrite (proj1 (@failure_paths libs f (CallSendBundle (Some ["0x01"; "0x02"]) 255%N) [])).
    reflexivity.
  - rewrite (proj1 (@failure_paths libs f (CallSendBundle None 255%N) [])).
    reflexivity.
Defined.

Lemma SendBundle_empty_witness :
  let libs := Stub.relayAccepts in
  let f := Stub.client libs 1%N in
  len (Some (@nil string)) = 0%nat
  /\ SendBundle f (Some []) 255%N [] = (Returned (Err errorTransaction), [])
  /\ FlashbotGo.SendBundle f (Some []) 255%N [] = (Returned (Err errorTransaction), []).
Proof.
  intros libs f.
  assert (H : len (Some (@nil string)) = 0%nat) by reflexivity.
  split; [exact H |].
  exact (@SendBundle_empty libs f (Some []) 255%N [] H).
Defined.

Lemma SendBundle_preserves_transactions_witness :
  let libs := Stub.relayAccepts in
  let f := Stub.client libs 1%N in
  let transactions := Some ["0x03"; "0x01"; "0x02"; "0x01"] in
  let bundle :=
    JObj [("txs", JArr [JStr "0x03"; JStr "0x01"; JStr "0x02"; JStr "0x01"]);
          ("blockNumber", JStr "0xff")] in
  let body :=
    JObj [("jsonrpc", JStr "2.0");
          ("id", JNum (Int 1));
          ("method", JStr "eth_sendBundle");
          ("params", JArr [bundle; bundle])] in
  let payload := list_byte_of_string (Stub.print body) in
  let req := postedRequest f payload in
  (1 <= len transactions)%nat
  /\ snd (SendBundle f transactions 255%N []) = [Signed (messageHash payload); Posted req]
  /\ snd (FlashbotGo.SendBundle f transactions 255%N [])
     = [Signed (messageHash payload); Posted req]
  /\ json_encode body = Ok (http.Body req).
Proof.
  intros libs f transactions bundle body payload req.
  assert (H1 : (1 <= len transactions)%nat) by (cbn; lia).
  split; [exact H1 |].
  destruct (@SendBundle_preserves_transactions libs f transactions 255%N [] H1)
    as (Hnew & Hgo & Hbody & _).
  split; [exact Hnew | split; [exact Hgo |]].
  apply Hbody. right. left. reflexivity.
Defined.

Lemma CallBundle_fixed_state_and_timestamp_witness :
  let libs := Stub.relayAccepts in
  let f := Stub.client libs 1%N in
  let args :=
    JObj [("txs", JArr [JStr "0x01"; JStr "0x02"]);
          ("blockNumber", JStr "0xff");
          ("stateBlockNumber", JStr "latest");
          ("timestamp", JNum (Int 1615920932))] in
  let body := JObj [("jsonrpc", JStr "2.0");
                    ("id", JNum (Int 1));
                    ("method", JStr "eth_callBundle");
                    ("params", JArr [args; args])] in
  let payload := list_byte_of_string (Stub.print body) in
  let req := postedRequest f payload in
  let evs := [Signed (messageHash payload); Posted req] in
  (snd (CallBundle f (Some ["0x01"; "0x02"]) 255%N []) = [] ++ evs
   /\ In (Posted req) evs)
  /\ json_encode body = Ok (http.Body req).
Proof.
  intros libs f args body payload req evs.
  assert (H1 : snd (CallBundle f (Some ["0x01"; "0x02"]) 255%N []) = [] ++ evs)
    by (vm_compute; reflexivity).
  assert (H2 : In (Posted req) evs) by (right; left; reflexivity).
  split; [exact (conj H1 H2) |].
  exact (@CallBundle_fixed_state_and_timestamp libs f (Some ["0x01"; "0x02"]) 255%N []
           evs req H1 H2).
Defined.

Lemma GetUserStats_block_number_not_hex_witness :
  let libs := Stub.relayAccepts in
  let f := Stub.client libs 1%N in
  let body := JObj [("jsonrpc", JStr "2.0");
                    ("id", JNum (Int 1));
                    ("method", JStr "flashbots_getUserStats");
                    ("params", JArr [JNum (Int 255); JNum (Int 255)])] in
  let payload := list_byte_of_string (Stub.print body) in
  let req := postedRequest f payload in
  let evs := [Signed (messageHash payload); Posted req] in
  (snd (GetUserStats f 255%N []) = [] ++ evs
   /\ In (Posted req) evs)
  /\ json_encode body = Ok (http.Body req)
  /\ JNum (Int 255) <> JStr "0xff".
Proof.
  intros libs f body payload req evs.
  assert (H1 : snd (GetUserStats f 255%N []) = [] ++ evs) by (vm_compute; reflexivity).
  assert (H2 : In (Posted req) evs) by (right; left; reflexivity).
  split; [exact (conj H1 H2) |].
  exact (@GetUserStats_block_number_not_hex libs f 255%N [] evs req H1 H2).
Defined.

Lemma SendPrivateTransaction_empty_is_dispatched_witness :
  let libs := Stub.relayAccepts in
  let f := Stub.client libs 1%N in
  let payload :=
    list_byte_of_string
      (Stub.print
         (JObj [("jsonrpc", JStr "2.0");
                ("id", JNum (Int 1));
                ("method", JStr "eth_sendPrivateTransaction");
                ("params",
                 JArr [JObj [("txs", JStr "");
                             ("maxBlockNumber", JStr "0x10");
                             ("preferences", JNull)];
                       JObj [("txs", JStr "");
                             ("maxBlockNumber", JStr "0x10");
                             ("preferences", JNull)]])])) in
  url_Parse_ok (Rpc f) = true
  /\ snd (SendPrivateTransaction f "" "0x10" []) =
     [] ++ [Signed (messageHash payload); Posted (postedRequest f payload)]
  /\ fst (SendPrivateTransaction f "" "0x10" []) <> Returned (Err errorTransaction).
Proof.
  intros libs f payload.
  assert (H : url_Parse_ok (Rpc f) = true) by reflexivity.
  split; [exact H |].
  pose proof (@SendPrivateTransaction_empty_is_dispatched libs f "0x10" [] payload
                eq_refl H) as [H1 [_ H3]].
  split; assumption.
Defined.

Lemma New_unknown_network_empty_endpoint_witness :
  let libs := Stub.relayAccepts in
  let getenv := fun _ : string => "01" in
  ("ropsten" <> "mainnet" /\ "ropsten" <> "goerli" /\ "01" <> ""
   /\ crypto_HexToECDSA "01" = Ok 1%N)
  /\ RelayDefaultRPC "ropsten" = ("", Some (errNetType "ropsten"))
  /\ New getenv "ropsten" [] = (Returned {| Rpc := ""; Key := 1%N |}, [])
  /\ FlashbotGo.New getenv "ropsten" [] = (Returned {| Rpc := ""; Key := 1%N |}, []).
Proof.
  intros libs getenv.
  assert (H1 : "ropsten" <> "mainnet") by discriminate.
  assert (H2 : "ropsten" <> "goerli") by discriminate.
  assert (H3 : "01" <> "") by discriminate.
  assert (H4 : crypto_HexToECDSA "01" = Ok 1%N) by reflexivity.
  split; [exact (conj H1 (conj H2 (conj H3 H4))) |].
  exact (@New_unknown_network_empty_endpoint libs getenv "ropsten" "01" 1%N [] H1 H2 H3
           eq_refl eq_refl H4).
Defined.

(** * Further properties of the package *)

Section Endpoints.

Context {libs : Collaborators}.

(** X1. [RelayDefaultRPC] resolves exactly the labels "mainnet" and "goerli":
    for them it returns no error and a non-empty https URL (a different one
    for each); for every other label it returns the empty string and an
    error that carries the label. *)
Theorem RelayDefaultRPC_resolves netType :
  (netType = "mainnet" \/ netType = "goerli" <-> snd (RelayDefaultRPC netType) = None)
  /\ (snd (RelayDefaultRPC netType) = None ->
      prefix "https://" (fst (RelayDefaultRPC netType)) = true
      /\ fst (RelayDefaultRPC netType) <> "")
  /\ (snd (RelayDefaultRPC netType) <> None ->
      RelayDefaultRPC netType = ("", Some (errNetType netType)))
  /\ fst (RelayDefaultRPC "mainnet") <> fst (RelayDefaultRPC "goerli").
Proof.
  unfold RelayDefaultRPC.
  destruct (String.eqb_spec netType "mainnet") as [-> | Hmain].
  - cbn. repeat split; auto; try discriminate. intros H. now contradiction H.
  - destruct (String.eqb_spec netType "goerli") as [-> | Hgoerli].
    + cbn. repeat split; auto; try discriminate. intros H. now contradiction H.
    + cbn. repeat split; try discriminate;
        try (intros [H | H]; contradiction); intros H; discriminate H.
Qed.

(** X2. [HextoBlockNumber] (and [WrapperBlockNumber], the same function in
    Flashbot.go) loses nothing: [hexutil.DecodeUint64] reads every 64-bit
    block number back from its string, so two different block numbers never
    get the same string. *)
Theorem BlockNumber_round_trip (a b : uint64) :
  (a <= 18446744073709551615)%N ->
  (b <= 18446744073709551615)%N ->
  hexutil.DecodeUint64 (HextoBlockNumber a) = Some a
  /\ hexutil.DecodeUint64 (WrapperBlockNumber a) = Some a
  /\ (HextoBlockNumber a = HextoBlockNumber b -> a = b).
Proof.
  intros Ha Hb.
  pose proof (HextoBlockNumber_minimal_hex a Ha) as Hra.
  pose proof (HextoBlockNumber_minimal_hex b Hb) as Hrb.
  split; [exact Hra | split; [exact Hra |]].
  intros Heq. rewrite Heq, Hrb in Hra. now injection Hra.
Qed.

(** X3. [New] builds no client without a usable key, revision by revision.
    The later revision ends the process with status 1 exactly when the
    environment variable PRIVATE_KEY is unset or empty or [crypto.HexToECDSA]
    rejects its value; the revision of Flashbot.go does so exactly when the
    variable PrivateKey is. Neither looks at the other's variable or at the
    network label, and neither signs or posts anything. *)
Theorem New_exits_without_key getenv relayRPC t :
  (fst (New getenv relayRPC t) = Exited 1%Z
   <-> (getenv "PRIVATE_KEY" = ""
        \/ exists e, crypto_HexToECDSA (getenv "PRIVATE_KEY") = Err e))
  /\ (fst (FlashbotGo.New getenv relayRPC t) = Exited 1%Z
      <-> (getenv "PrivateKey" = ""
           \/ exists e, crypto_HexToECDSA (getenv "PrivateKey") = Err e))
  /\ snd (New getenv relayRPC t) = t
  /\ snd (FlashbotGo.New getenv relayRPC t) = t.
Proof.
  unfold New, FlashbotGo.New, HexToECDSA.
  destruct (RelayDefaultRPC relayRPC) as [rpc err].
  repeat split.
  - destruct (String.eqb_spec (getenv "PRIVATE_KEY") "") as [He | Hne]; [now left |].
    unfold bind.
    destruct (crypto_HexToECDSA (getenv "PRIVATE_KEY")) as [key | e].
    + intros H. discriminate H.
    + intros _. right. exists e. reflexivity.
  - intros [-> | [e He]]; [reflexivity |].
    destruct (String.eqb (getenv "PRIVATE_KEY") ""); [reflexivity |].
    unfold bind. rewrite He. reflexivity.
  - destruct (String.eqb_spec (getenv "PrivateKey") "") as [He | Hne]; [now left |].
    unfold bind.
    destruct (crypto_HexToECDSA (getenv "PrivateKey")) as [key | e].
    + intros H. discriminate H.
    + intros _. right. exists e. reflexivity.
  - intros [-> | [e He]]; [reflexivity |].
    destruct (String.eqb (getenv "PrivateKey") ""); [reflexivity |].
    unfold bind. rewrite He. reflexivity.
  - destruct (String.eqb (getenv "PRIVATE_KEY") ""); [reflexivity |].
    unfold bind. destruct (crypto_HexToECDSA _); reflexivity.
  - destruct (String.eqb (getenv "PrivateKey") ""); [reflexivity |].
    unfold bind. destruct (crypto_HexToECDSA _); reflexivity.
Qed.

(** X4. A client [New] returns holds the key that [crypto.HexToECDSA] reads
    from the (non-empty) environment variable and the endpoint
    [RelayDefaultRPC] gives for the label; for "mainnet" and "goerli" that
    endpoint is a non-empty https URL. Building it signs and posts nothing. *)
Theorem New_returns_resolved_client getenv relayRPC t f t' :
  New getenv relayRPC t = (Returned f, t') ->
  t' = t
  /\ getenv "PRIVATE_KEY" <> ""
  /\ crypto_HexToECDSA (getenv "PRIVATE_KEY") = Ok (Key f)
  /\ Rpc f = fst (RelayDefaultRPC relayRPC)
  /\ (relayRPC = "mainnet" \/ relayRPC = "goerli" ->
      prefix "https://" (Rpc f) = true /\ Rpc f <> "").
Proof.
  unfold New, HexToECDSA.
  destruct (RelayDefaultRPC relayRPC) as [rpc err] eqn:Hrpc.
  destruct (String.eqb_spec (getenv "PRIVATE_KEY") "") as [Hempty | Hne].
  - intros H. discriminate H.
  - unfold bind.
    destruct (crypto_HexToECDSA (getenv "PRIVATE_KEY")) as [key | e].
    + cbn. intros [= <- <-]. cbn [Rpc Key].
      repeat split; auto.
      * destruct H as [-> | ->]; cbv in Hrpc; now injection Hrpc as <- _.
      * destruct H as [-> | ->]; cbv in Hrpc; injection Hrpc as <- _; discriminate.
    + intros H. discriminate H.
Qed.

End Endpoints.

Section Requests.

Context {libs : Collaborators}.

(** X5. One call of [requestRPC] either calls the signer once and then posts
    once, in that order, or does neither. It does neither exactly when the
    envelope cannot be serialized or the URL is refused, and the process then
    exits with status 1. Otherwise the one request it posts is the signed
    envelope, and the call ends as the transport does: the process exits with
    status 1 exactly when [client.Do] fails on that request, and the call
    returns the body of the reply exactly when [client.Do] succeeds. The
    outcome of the signer is not looked at (its failure leaves the signature
    empty), so a post always follows the call of the signer; and the call
    never returns without having posted. *)
Theorem requestRPC_signs_then_posts_once f Method params t :
  (exists payload,
      json_encode (envelope Method params) = Ok payload
      /\ url_Parse_ok (Rpc f) = true
      /\ snd (requestRPC f Method params t)
         = t ++ [Signed (messageHash payload); Posted (postedRequest f payload)]
      /\ ((exists e, client_Do (postedRequest f payload) = Err e
                     /\ fst (requestRPC f Method params t) = Exited 1%Z)
          \/ (exists resp, client_Do (postedRequest f payload) = Ok resp
                           /\ fst (requestRPC f Method params t)
                              = Returned (http.ResponseBody resp))))
  \/ (requestRPC f Method params t = (Exited 1%Z, t)
      /\ ((exists e, json_encode (envelope Method params) = Err e)
          \/ url_Parse_ok (Rpc f) = false)).
Proof.
  rewrite requestRPC_run.
  destruct (json_encode (envelope Method params)) as [payload | e].
  - destruct (url_Parse_ok (Rpc f)).
    + left. exists payload. repeat split.
      destruct (client_Do (postedRequest f payload)) as [resp | e].
      * right. exists resp. split; reflexivity.
      * left. exists e. split; reflexivity.
    + right. split; [reflexivity | right; reflexivity].
  - right. split; [reflexivity | left; exists e; reflexivity].
Qed.

(** X6. Every request [requestRPC] posts is a POST to the client's endpoint
    with three header lines: the content type and the accepted type, both
    "application/json" and filed under their canonical names, and the
    signature. *)
Theorem requestRPC_request_shape f Method params t evs req :
  snd (requestRPC f Method params t) = t ++ evs ->
  In (Posted req) evs ->
  http.Method req = "POST"
  /\ http.URL req = Rpc f
  /\ map fst (http.Header req) = ["Content-Type"; "Accept"; "X-Flashbots-Signature"]
  /\ http.Header_Values "content-type" req = ["application/json"]
  /\ http.Header_Values "accept" req = ["application/json"]
  /\ http.Header_Get "x-flashbots-signature" req
     = flashbotHeader (signatureOf f (http.Body req)) (Key f).
Proof.
  intros Hrun Hin.
  destruct (requestRPC_posted f Method params t evs req Hrun Hin) as (_ & Hreq & _).
  rewrite Hreq. repeat split.
Qed.


(** X8. [CallBundle] with an empty transaction list (nil or of length 0)
    returns [errorTransaction] for every block number, and signs and posts
    nothing. *)
Theorem CallBundle_empty f transaction blockNumber t :
  len transaction = 0%nat ->
  CallBundle f transaction blockNumber t = (Returned (Err errorTransaction), t).
Proof.
  intros Hlen. unfold CallBundle. rewrite Hlen. reflexivity.
Qed.

End Requests.

Section DecodeErrors.

Context {libs : Collaborators}.

Lemma typed_FlashbotGo_SendBundleResponse : typed FlashbotGo.SendBundleResponse.decode.
Proof.
  apply typed_struct. unfold FlashbotGo.SendBundleResponse.fields. cbn [map snd].
  repeat (apply Forall_cons;
          [apply typed_field;
           first [apply typed_string | apply typed_uint | apply typed_int
                 | apply typed_ptr; apply typed_bundleResult] |]).
  apply Forall_nil.
Qed.

(** What a gateway returns after [requestRPC]: the decoded reply. *)
Lemma gateway_returned {A} (d : dec A) (zero : A) f Method params t r :
  fst ((resp <- requestRPC f Method params ;;
        ret (decoded (json_Unmarshal d resp zero))) t) = Returned r ->
  exists reply, r = decoded (json_Unmarshal d reply zero).
Proof.
  rewrite gateway_run.
  destruct (json_encode _) as [payload | e]; [| intros H; discriminate H].
  destruct (url_Parse_ok (Rpc f)); [| intros H; discriminate H].
  cbn [fst]. destruct (client_Do _) as [resp | e]; [| intros H; discriminate H].
  intros [= <-]. eexists. reflexivity.
Qed.

(** X9. The only errors a gateway returns to its caller are
    [errorTransaction] and the errors of [json.Unmarshal] (a syntax error or a
    type error): an error of the signer, of the serializer or of the transport
    never comes back as a value. Of the two gateways without a precondition,
    the errors are those of [json.Unmarshal] alone. *)
Theorem gateway_errors f transactions blockNumber tx maxBlockNumber t err :
  fst (SendBundle f transactions blockNumber t) = Returned (Err err)
  \/ fst (FlashbotGo.SendBundle f transactions blockNumber t) = Returned (Err err)
  \/ fst (CallBundle f transactions blockNumber t) = Returned (Err err)
  \/ fst (SendPrivateTransaction f tx maxBlockNumber t) = Returned (Err err)
  \/ fst (GetUserStats f blockNumber t) = Returned (Err err) ->
  (err = errorTransaction \/ isDecodeError err = true)
  /\ (fst (SendPrivateTransaction f tx maxBlockNumber t) = Returned (Err err)
      \/ fst (GetUserStats f blockNumber t) = Returned (Err err) ->
      isDecodeError err = true).
Proof.
  assert (Hdec : forall A (d : dec A) (zero : A) Method params,
             typed d ->
             fst ((resp <- requestRPC f Method params ;;
                   ret (decoded (json_Unmarshal d resp zero))) t) = Returned (Err err) ->
             isDecodeError err = true).
  { intros A d zero Method params Hd H.
    apply gateway_returned in H. destruct H as [reply H].
    symmetry in H. exact (decoded_error d reply zero err Hd H). }
  intros H. split.
  - destruct H as [H | [H | [H | [H | H]]]].
    + unfold SendBundle in H. destruct (len transactions <? 1)%nat.
      * left. cbn in H. now injection H as <-.
      * right. exact (Hdec _ _ _ _ _ typed_SendBundleResponse H).
    + unfold FlashbotGo.SendBundle in H. destruct (len transactions <? 1)%nat.
      * left. cbn in H. now injection H as <-.
      * right. exact (Hdec _ _ _ _ _ typed_FlashbotGo_SendBundleResponse H).
    + unfold CallBundle in H. destruct (len transactions <? 1)%nat.
      * left. cbn in H. now injection H as <-.
      * right. exact (Hdec _ _ _ _ _ typed_CallBundleResponse H).
    + right. exact (Hdec _ _ _ _ _ typed_SendPrivateTxResponse H).
    + right. exact (Hdec _ _ _ _ _ typed_UserStatsResponse H).
  - intros [H' | H'].
    + exact (Hdec _ _ _ _ _ typed_SendPrivateTxResponse H').
    + exact (Hdec _ _ _ _ _ typed_UserStatsResponse H').
Qed.

(** X10. When the relay's answer is not JSON text, every gateway whose
    request went out returns the syntax error of [json.Unmarshal] and no
    response; the process does not exit. *)
Theorem reply_not_json_is_syntax_error
        f answer transactions blockNumber tx maxBlockNumber t :
  (forall j, exists payload, json_encode j = Ok payload) ->
  url_Parse_ok (Rpc f) = true ->
  (forall req, client_Do req = Ok answer) ->
  json_scan (http.ResponseBody answer) = None ->
  (1 <= len transactions)%nat ->
  fst (SendBundle f transactions blockNumber t) = Returned (Err SyntaxError)
  /\ fst (FlashbotGo.SendBundle f transactions blockNumber t) = Returned (Err SyntaxError)
  /\ fst (CallBundle f transactions blockNumber t) = Returned (Err SyntaxError)
  /\ fst (SendPrivateTransaction f tx maxBlockNumber t) = Returned (Err SyntaxError)
  /\ fst (GetUserStats f blockNumber t) = Returned (Err SyntaxError).
Proof.
  intros Henc Hurl Hdo Hscan Hlen.
  assert (Hgo : forall A (d : dec A) (zero : A) Method params,
             fst ((reply <- requestRPC f Method params ;;
                   ret (decoded (json_Unmarshal d reply zero))) t) =
             Returned (Err SyntaxError)).
  { intros A d zero Method params.
    destruct (Henc (envelope Method params)) as [payload Hpayload].
    rewrite (gateway_reply d zero f Method params t payload answer Hpayload Hurl (Hdo _)).
    unfold json_Unmarshal. rewrite Hscan. reflexivity. }
  assert (Hguard : (len transactions <? 1)%nat = false) by (apply Nat.ltb_ge; exact Hlen).
  unfold SendBundle, FlashbotGo.SendBundle, CallBundle, SendPrivateTransaction, GetUserStats.
  rewrite Hguard. repeat split; apply Hgo.
Qed.

End DecodeErrors.

Section Members.

Context {libs : Collaborators}.

Lemma fold_member_errors_stay {A} (fields : list (string * dec A)) ms :
  forall acc, snd acc <> [] -> snd (fold_left (member fields) ms acc) <> [].
Proof.
  induction ms as [| kv ms IH]; intros acc Hacc; [exact Hacc |].
  cbn [fold_left]. apply IH. unfold member.
  destruct (lookup fields (fst kv)) as [d |]; [| exact Hacc].
  destruct (d (snd kv) (fst acc)) as [v e]. cbn [snd].
  destruct (snd acc); [now contradiction Hacc | discriminate].
Qed.

Lemma fold_member_hits {A} (fields : list (string * dec A)) ms kv d :
  In kv ms ->
  lookup fields (fst kv) = Some d ->
  (forall cur, snd (d (snd kv) cur) <> []) ->
  forall acc, snd (fold_left (member fields) ms acc) <> [].
Proof.
  intros Hin Hlook Hd.
  induction ms as [| kv' ms IH]; [destruct Hin |].
  intros acc. cbn [fold_left].
  destruct Hin as [-> | Hin]; [| now apply IH].
  apply fold_member_errors_stay. unfold member. rewrite Hlook.
  specialize (Hd (fst acc)). destruct (d (snd kv) (fst acc)) as [v e]. cbn [snd] in *.
  destruct (snd acc); [exact Hd | discriminate].
Qed.

Lemma struct_rejects {A} (fields : list (string * dec A)) gotype (zero : A) ms kv d :
  typed (struct_ fields gotype) ->
  In kv ms ->
  lookup fields (fst kv) = Some d ->
  (forall cur, snd (d (snd kv) cur) <> []) ->
  exists e,
    decoded (let (v, es) := struct_ fields gotype (JObj ms) zero in (v, hd_error es)) = Err e
    /\ isTypeError e = true.
Proof.
  intros Htyped Hin Hlook Hd.
  specialize (Htyped (JObj ms) zero).
  pose proof (fold_member_hits fields ms kv d Hin Hlook Hd (zero, [])) as Hne.
  change (fold_left (member fields) ms (zero, [])) with (struct_ fields gotype (JObj ms) zero)
    in Hne.
  destruct (struct_ fields gotype (JObj ms) zero) as [v [| e es]];
    [now contradiction Hne |].
  exists e. split; [reflexivity |].
  cbn in Htyped. now apply andb_prop in Htyped.
Qed.

(** X11. A reply whose "id" member is a JSON string (JSON-RPC allows string
    ids) does not decode: every gateway whose request went out returns a type
    error of [json.Unmarshal] instead of a response, whatever else the reply
    holds. *)
Theorem reply_with_string_id_is_rejected
        f answer ms s transactions blockNumber tx maxBlockNumber t :
  (forall j, exists payload, json_encode j = Ok payload) ->
  url_Parse_ok (Rpc f) = true ->
  (forall req, client_Do req = Ok answer) ->
  json_scan (http.ResponseBody answer) = Some (JObj ms) ->
  In ("id", JStr s) ms ->
  (1 <= len transactions)%nat ->
  (exists e, fst (SendBundle f transactions blockNumber t) = Returned (Err e)
             /\ isTypeError e = true)
  /\ (exists e, fst (CallBundle f transactions blockNumber t) = Returned (Err e)
                /\ isTypeError e = true)
  /\ (exists e, fst (SendPrivateTransaction f tx maxBlockNumber t) = Returned (Err e)
                /\ isTypeError e = true)
  /\ (exists e, fst (GetUserStats f blockNumber t) = Returned (Err e)
                /\ isTypeError e = true).
Proof.
  intros Henc Hurl Hdo Hscan Hin Hlen.
  assert (Hgo : forall A (d : dec A) (zero : A) Method params,
             fst ((reply <- requestRPC f Method params ;;
                   ret (decoded (json_Unmarshal d reply zero))) t) =
             Returned (decoded (let (v, es) := d (JObj ms) zero in (v, hd_error es)))).
  { intros A d zero Method params.
    destruct (Henc (envelope Method params)) as [payload Hpayload].
    rewrite (gateway_reply d zero f Method params t payload answer Hpayload Hurl (Hdo _)).
    unfold json_Unmarshal. rewrite Hscan. reflexivity. }
  assert (Hguard : (len transactions <? 1)%nat = false) by (apply Nat.ltb_ge; exact Hlen).
  unfold SendBundle, CallBundle, SendPrivateTransaction, GetUserStats.
  rewrite Hguard, !Hgo.
  repeat split.
  - destruct (struct_rejects SendBundleResponse.fields "flashbot.SendBundleResponse"
                SendBundleResponse.zero ms ("id", JStr s) _
                typed_SendBundleResponse Hin eq_refl) as (e & He & Ht).
    + intros cur. cbv. discriminate.
    + exists e. split; [now rewrite <- He | exact Ht].
  - destruct (struct_rejects CallBundleResponse.fields "flashbot.CallBundleResponse"
                CallBundleResponse.zero ms ("id", JStr s) _
                typed_CallBundleResponse Hin eq_refl) as (e & He & Ht).
    + intros cur. cbv. discriminate.
    + exists e. split; [now rewrite <- He | exact Ht].
  - destruct (struct_rejects SendPrivateTxResponse.fields "flashbot.SendPrivateTxResponse"
                SendPrivateTxResponse.zero ms ("id", JStr s) _
                typed_SendPrivateTxResponse Hin eq_refl) as (e & He & Ht).
    + intros cur. cbv. discriminate.
    + exists e. split; [now rewrite <- He | exact Ht].
  - destruct (struct_rejects UserStatsResponse.fields "flashbot.UserStatsResponse"
                UserStatsResponse.zero ms ("id", JStr s) _
                typed_UserStatsResponse Hin eq_refl) as (e & He & Ht).
    + intros cur. cbv. discriminate.
    + exists e. split; [now rewrite <- He | exact Ht].
Qed.

End Members.

Section UnknownMembers.

Context {libs : Collaborators}.

Lemma struct_skips {A} (fields : list (string * dec A)) gotype k v ms1 ms2 (cur : A) :
  lookup fields k = None ->
  struct_ fields gotype (JObj (ms1 ++ (k, v) :: ms2)) cur
  = struct_ fields gotype (JObj (ms1 ++ ms2)) cur.
Proof.
  intros Hk. unfold struct_. rewrite !fold_left_app. cbn [fold_left].
  unfold member at 2. cbn [fst]. rewrite Hk. reflexivity.
Qed.

Lemma struct_skips_all {A} (fields : list (string * dec A)) gotype ms (cur : A) :
  (forall kv, In kv ms -> lookup fields (fst kv) = None) ->
  struct_ fields gotype (JObj ms) cur = (cur, []).
Proof.
  intros Hms. unfold struct_.
  induction ms as [| kv ms IH]; [reflexivity |].
  cbn [fold_left]. unfold member at 2. rewrite (Hms kv (or_introl eq_refl)).
  apply IH. intros kv' Hin. apply Hms. now right.
Qed.

Lemma lookup_unknown k :
  unknownMember k = true ->
  lookup SendBundleResponse.fields k = None
  /\ lookup FlashbotGo.SendBundleResponse.fields k = None
  /\ lookup CallBundleResponse.fields k = None
  /\ lookup SendPrivateTxResponse.fields k = None
  /\ lookup UserStatsResponse.fields k = None.
Proof.
  intros H. unfold unknownMember, knownNames in H.
  assert (Hexact : forall name, In (foldName name) knownNames -> String.eqb name k = false).
  { intros name Hname. destruct (String.eqb_spec name k) as [<- |]; [| reflexivity].
    apply negb_true_iff in H. rewrite <- H. symmetry.
    apply existsb_exists. exists (foldName name). split; [exact Hname |].
    apply String.eqb_refl. }
  assert (Hfold : forall folded, In folded knownNames -> String.eqb folded (foldName k) = false).
  { intros folded Hname. destruct (String.eqb_spec folded (foldName k)) as [Heq |]; [| reflexivity].
    apply negb_true_iff in H. rewrite <- H. symmetry.
    apply existsb_exists. exists folded. split; [exact Hname |].
    rewrite Heq. apply String.eqb_refl. }
  assert (H1 : String.eqb "id" k = false) by (apply Hexact; cbv; auto).
  assert (H2 : String.eqb "jsonrpc" k = false) by (apply Hexact; cbv; auto).
  assert (H3 : String.eqb "result" k = false) by (apply Hexact; cbv; auto).
  assert (H4 : String.eqb "error" k = false) by (apply Hexact; cbv; auto 6).
  assert (H5 : String.eqb "Raw" k = false) by (apply Hexact; cbv; auto 7).
  assert (H6 : String.eqb "StatusCode" k = false) by (apply Hexact; cbv; auto 8).
  assert (F1 : String.eqb "ID" (foldName k) = false) by (apply Hfold; cbv; auto).
  assert (F2 : String.eqb "JSONRPC" (foldName k) = false) by (apply Hfold; cbv; auto).
  assert (F3 : String.eqb "RESULT" (foldName k) = false) by (apply Hfold; cbv; auto).
  assert (F4 : String.eqb "ERROR" (foldName k) = false) by (apply Hfold; cbv; auto 6).
  assert (F5 : String.eqb "RAW" (foldName k) = false) by (apply Hfold; cbv; auto 7).
  assert (F6 : String.eqb "STATUSCODE" (foldName k) = false) by (apply Hfold; cbv; auto 8).
  unfold lookup, SendBundleResponse.fields, FlashbotGo.SendBundleResponse.fields,
    CallBundleResponse.fields, SendPrivateTxResponse.fields, UserStatsResponse.fields.
  cbn [find fst].
  change (foldName "id") with "ID".
  change (foldName "jsonrpc") with "JSONRPC".
  change (foldName "result") with "RESULT".
  change (foldName "error") with "ERROR".
  change (foldName "Raw") with "RAW".
  change (foldName "StatusCode") with "STATUSCODE".
  rewrite H1, H2, H3, H4, H5, H6, F1, F2, F3, F4, F5, F6.
  repeat split.
Qed.

(** X12. A member of the reply whose name selects no field (compared
    exactly and under case folding) changes nothing: each response decodes to
    the same value and the same type errors as without the member, wherever
    the member stands. *)
Theorem unknown_member_is_ignored k v ms1 ms2 :
  unknownMember k = true ->
  (forall cur, SendBundleResponse.decode (JObj (ms1 ++ (k, v) :: ms2)) cur
               = SendBundleResponse.decode (JObj (ms1 ++ ms2)) cur)
  /\ (forall cur, FlashbotGo.SendBundleResponse.decode (JObj (ms1 ++ (k, v) :: ms2)) cur
                  = FlashbotGo.SendBundleResponse.decode (JObj (ms1 ++ ms2)) cur)
  /\ (forall cur, CallBundleResponse.decode (JObj (ms1 ++ (k, v) :: ms2)) cur
                  = CallBundleResponse.decode (JObj (ms1 ++ ms2)) cur)
  /\ (forall cur, SendPrivateTxResponse.decode (JObj (ms1 ++ (k, v) :: ms2)) cur
                  = SendPrivateTxResponse.decode (JObj (ms1 ++ ms2)) cur)
  /\ (forall cur, UserStatsResponse.decode (JObj (ms1 ++ (k, v) :: ms2)) cur
                  = UserStatsResponse.decode (JObj (ms1 ++ ms2)) cur).
Proof.
  intros Hk. destruct (lookup_unknown k Hk) as (H1 & H2 & H3 & H4 & H5).
  repeat split; intros cur; apply struct_skips; assumption.
Qed.

(** X13. A reply that is [null], or an object none of whose members selects
    a field (the empty object among them), is taken as a success: every
    gateway whose request went out returns the zero response and a nil
    error. *)
Theorem empty_reply_is_a_zero_response
        f answer reply transactions blockNumber tx maxBlockNumber t :
  (forall j, exists payload, json_encode j = Ok payload) ->
  url_Parse_ok (Rpc f) = true ->
  (forall req, client_Do req = Ok answer) ->
  json_scan (http.ResponseBody answer) = Some reply ->
  reply = JNull
  \/ (exists ms, reply = JObj ms
                 /\ forallb (fun kv => unknownMember (fst kv)) ms = true) ->
  (1 <= len transactions)%nat ->
  fst (SendBundle f transactions blockNumber t) = Returned (Ok SendBundleResponse.zero)
  /\ fst (CallBundle f transactions blockNumber t) = Returned (Ok CallBundleResponse.zero)
  /\ fst (SendPrivateTransaction f tx maxBlockNumber t)
     = Returned (Ok SendPrivateTxResponse.zero)
  /\ fst (GetUserStats f blockNumber t) = Returned (Ok UserStatsResponse.zero).
Proof.
  intros Henc Hurl Hdo Hscan Hreply Hlen.
  assert (Hgo : forall A (d : dec A) (zero : A) Method params,
             fst ((resp <- requestRPC f Method params ;;
                   ret (decoded (json_Unmarshal d resp zero))) t) =
             Returned (decoded (let (v, es) := d reply zero in (v, hd_error es)))).
  { intros A d zero Method params.
    destruct (Henc (envelope Method params)) as [payload Hpayload].
    rewrite (gateway_reply d zero f Method params t payload answer Hpayload Hurl (Hdo _)).
    unfold json_Unmarshal. rewrite Hscan. reflexivity. }
  assert (Hguard : (len transactions <? 1)%nat = false) by (apply Nat.ltb_ge; exact Hlen).
  unfold SendBundle, CallBundle, SendPrivateTransaction, GetUserStats.
  rewrite Hguard, !Hgo.
  destruct Hreply as [-> | (ms & -> & Hms)]; [repeat split |].
  rewrite forallb_forall in Hms.
  unfold SendBundleResponse.decode, CallBundleResponse.decode,
    SendPrivateTxResponse.decode, UserStatsResponse.decode.
  rewrite !struct_skips_all; [repeat split | | | |];
    intros kv Hin; apply (lookup_unknown (fst kv) (Hms kv Hin)).
Qed.

End UnknownMembers.

(** ** Replies that are JSON-RPC error objects *)

Section ErrorReplies.

Context {libs : Collaborators}.

Lemma lookup_errorResult_unknown k :
  unknownErrorMember k = true -> lookup errorResult.fields k = None.
Proof.
  intros H. unfold unknownErrorMember in H. apply negb_true_iff in H.
  assert (Hexact : forall name, In (foldName name) ["CODE"; "MESSAGE"] ->
                                String.eqb name k = false).
  { intros name Hname. destruct (String.eqb_spec name k) as [<- |]; [| reflexivity].
    rewrite <- H. symmetry. apply existsb_exists. exists (foldName name).
    split; [exact Hname | apply String.eqb_refl]. }
  assert (Hfold : forall folded, In folded ["CODE"; "MESSAGE"] ->
                                 String.eqb folded (foldName k) = false).
  { intros folded Hname.
    destruct (String.eqb_spec folded (foldName k)) as [Heq |]; [| reflexivity].
    rewrite <- H. symmetry. apply existsb_exists. exists folded.
    split; [exact Hname | rewrite Heq; apply String.eqb_refl]. }
  assert (H1 : String.eqb "code" k = false) by (apply Hexact; cbv; auto).
  assert (H2 : String.eqb "message" k = false) by (apply Hexact; cbv; auto).
  assert (F1 : String.eqb "CODE" (foldName k) = false) by (apply Hfold; cbv; auto).
  assert (F2 : String.eqb "MESSAGE" (foldName k) = false) by (apply Hfold; cbv; auto).
  unfold lookup, errorResult.fields. cbn [find fst].
  change (foldName "code") with "CODE".
  change (foldName "message") with "MESSAGE".
  rewrite H1, H2, F1, F2. reflexivity.
Qed.

(** One member of the error object, stored into the struct. *)
Lemma errorResult_member code message kv acc :
  int64_ok code = true ->
  errorObjectMember code message kv = true ->
  snd acc = [] ->
  snd (member errorResult.fields acc kv) = []
  /\ errorResult.Code (fst (member errorResult.fields acc kv))
     = (if isCodeMember code kv then code else errorResult.Code (fst acc))
  /\ errorResult.Message (fst (member errorResult.fields acc kv))
     = (if isMessageMember message kv then message else errorResult.Message (fst acc)).
Proof.
  intros Hcode Hkv Hacc.
  destruct kv as [k v], acc as [[c m] es]. cbn [snd] in Hacc. subst es.
  unfold errorObjectMember in Hkv.
  destruct (isCodeMember code (k, v)) eqn:Hc.
  - unfold isCodeMember in Hc. cbn [fst snd] in Hc.
    apply andb_prop in Hc. destruct Hc as [Hk Hv].
    apply String.eqb_eq in Hk. subst k.
    destruct v as [| b | [z | lit] | s | l | ms]; try discriminate Hv.
    apply Z.eqb_eq in Hv. subst z.
    unfold int64_ok in Hcode.
    cbv - [Z.leb andb int64_min int64_max]. rewrite Hcode. repeat split.
  - destruct (isMessageMember message (k, v)) eqn:Hm.
    + unfold isMessageMember in Hm. cbn [fst snd] in Hm.
      apply andb_prop in Hm. destruct Hm as [Hk Hv].
      apply String.eqb_eq in Hk. subst k.
      destruct v as [| b | n | s | l | ms]; try discriminate Hv.
      apply String.eqb_eq in Hv. subst s.
      repeat split.
    + cbn [orb fst] in Hkv. unfold member. cbn [fst].
      rewrite (lookup_errorResult_unknown k Hkv). repeat split.
Qed.

Lemma errorResult_members code message ems :
  int64_ok code = true ->
  forallb (errorObjectMember code message) ems = true ->
  forall acc,
    snd acc = [] ->
    snd (fold_left (member errorResult.fields) ems acc) = []
    /\ (existsb (isCodeMember code) ems = true \/ errorResult.Code (fst acc) = code ->
        errorResult.Code (fst (fold_left (member errorResult.fields) ems acc)) = code)
    /\ (existsb (isMessageMember message) ems = true
        \/ errorResult.Message (fst acc) = message ->
        errorResult.Message (fst (fold_left (member errorResult.fields) ems acc))
        = message).
Proof.
  intros Hcode. induction ems as [| kv ems IH]; intros Hall acc Hacc.
  - cbn [fold_left existsb]. split; [exact Hacc |].
    split; (intros [H | H]; [discriminate H | exact H]).
  - cbn [forallb] in Hall. apply andb_prop in Hall. destruct Hall as [Hkv Hall].
    destruct (errorResult_member code message kv acc Hcode Hkv Hacc) as (He & Hc & Hm).
    cbn [fold_left existsb].
    destruct (IH Hall (member errorResult.fields acc kv) He) as (IHe & IHc & IHm).
    split; [exact IHe |]. split.
    + intros H. apply IHc. rewrite Hc.
      destruct (isCodeMember code kv); [now right |]. exact H.
    + intros H. apply IHm. rewrite Hm.
      destruct (isMessageMember message kv); [now right |]. exact H.
Qed.

(** The error object decodes to its code and message, whatever the struct
    held before. *)
Lemma errorResult_decodes code message v cur :
  isErrorObject code message v = true ->
  errorResult.decode v cur
  = ({| errorResult.Code := code; errorResult.Message := message |}, []).
Proof.
  destruct v as [| b | n | s | l | ems]; try (intros H; discriminate H).
  unfold isErrorObject. intros H.
  apply andb_prop in H. destruct H as [H Hm].
  apply andb_prop in H. destruct H as [H Hc].
  apply andb_prop in H. destruct H as [Hcode Hall].
  destruct (errorResult_members code message ems Hcode Hall (cur, []) eq_refl)
    as (He & Hcd & Hmsg).
  unfold errorResult.decode, struct_.
  specialize (Hcd (or_introl Hc)). specialize (Hmsg (or_introl Hm)).
  destruct (fold_left (member errorResult.fields) ems (cur, [])) as [[c m] es].
  cbn [fst snd errorResult.Code errorResult.Message] in *. subst. reflexivity.
Qed.

(** Members that store without a report leave the report empty. *)
Lemma fold_member_clean {A} (fields : list (string * dec A)) (Q : string * json -> Prop) ms :
  (forall kv acc, Q kv -> snd acc = [] -> snd (member fields acc kv) = []) ->
  (forall kv, In kv ms -> Q kv) ->
  forall acc, snd acc = [] -> snd (fold_left (member fields) ms acc) = [].
Proof.
  intros Hstep. induction ms as [| kv ms IH]; intros HQ acc Hacc; [exact Hacc |].
  cbn [fold_left]. apply IH.
  - intros kv' Hin. apply HQ. now right.
  - apply Hstep; [apply HQ; now left | exact Hacc].
Qed.

Lemma id_fits z :
  ((0 <=? z) && (z <=? int64_max))%Z = true ->
  ((0 <=? z) && (z <=? uint64_max))%Z = true
  /\ ((int64_min <=? z) && (z <=? int64_max))%Z = true.
Proof.
  intros H. apply andb_prop in H. destruct H as [H0 H1].
  apply Z.leb_le in H0, H1. unfold int64_max in H1.
  split; apply andb_true_intro; split; apply Z.leb_le;
    unfold uint64_max, int64_min, int64_max; lia.
Qed.

Ltac storable_cases kv acc H :=
  let k := fresh "k" in
  let v := fresh "v" in
  let r := fresh "r" in
  let es := fresh "es" in
  let Hm := fresh "Hm" in
  let Hs := fresh "Hs" in
  destruct kv as [k v]; destruct acc as [r es]; destruct H as [Hm Hs];
  unfold replyMember in Hm; unfold isStringId in Hs; cbn [fst snd] in *;
  subst es; destruct r.

Lemma SendBundleResponse_member code message kv acc :
  storable code message kv -> snd acc = [] ->
  snd (member SendBundleResponse.fields acc kv) = [].
Proof.
  intros H Hacc. storable_cases kv acc H.
  destruct (String.eqb_spec k "jsonrpc") as [-> | _].
  { destruct v; try discriminate Hm; reflexivity. }
  destruct (String.eqb_spec k "id") as [-> | _].
  { destruct v as [| b | [z | lit] | s | l | ms];
      try discriminate Hm; try discriminate Hs; [reflexivity |].
    destruct (id_fits z Hm) as [Hu Hi].
    cbv - [Z.leb andb uint64_max int64_min int64_max Z.to_N]. rewrite Hu. reflexivity. }
  destruct (String.eqb_spec k "error") as [-> | _]; [reflexivity |].
  unfold member. cbn [fst].
  destruct (lookup_unknown k Hm) as (H1 & H2 & H3 & H4 & H5). rewrite H1. reflexivity.
Qed.

Lemma FlashbotGo_SendBundleResponse_member code message kv acc :
  storable code message kv -> snd acc = [] ->
  snd (member FlashbotGo.SendBundleResponse.fields acc kv) = [].
Proof.
  intros H Hacc. storable_cases kv acc H.
  destruct (String.eqb_spec k "jsonrpc") as [-> | _].
  { destruct v; try discriminate Hm; reflexivity. }
  destruct (String.eqb_spec k "id") as [-> | _].
  { destruct v as [| b | [z | lit] | s | l | ms];
      try discriminate Hm; try discriminate Hs; [reflexivity |].
    destruct (id_fits z Hm) as [Hu Hi].
    cbv - [Z.leb andb uint64_max int64_min int64_max Z.to_N]. rewrite Hu. reflexivity. }
  destruct (String.eqb_spec k "error") as [-> | _]; [reflexivity |].
  unfold member. cbn [fst].
  destruct (lookup_unknown k Hm) as (H1 & H2 & H3 & H4 & H5). rewrite H2. reflexivity.
Qed.

Lemma SendPrivateTxResponse_member code message kv acc :
  storable code message kv -> snd acc = [] ->
  snd (member SendPrivateTxResponse.fields acc kv) = [].
Proof.
  intros H Hacc. storable_cases kv acc H.
  destruct (String.eqb_spec k "jsonrpc") as [-> | _].
  { destruct v; try discriminate Hm; reflexivity. }
  destruct (String.eqb_spec k "id") as [-> | _].
  { destruct v as [| b | [z | lit] | s | l | ms];
      try discriminate Hm; try discriminate Hs; [reflexivity |].
    destruct (id_fits z Hm) as [Hu Hi].
    cbv - [Z.leb andb uint64_max int64_min int64_max Z.to_N]. rewrite Hi. reflexivity. }
  destruct (String.eqb_spec k "error") as [-> | _]; [reflexivity |].
  unfold member. cbn [fst].
  destruct (lookup_unknown k Hm) as (H1 & H2 & H3 & H4 & H5). rewrite H4. reflexivity.
Qed.

Lemma UserStatsResponse_member code message kv acc :
  storable code message kv -> snd acc = [] ->
  snd (member UserStatsResponse.fields acc kv) = [].
Proof.
  intros H Hacc. storable_cases kv acc H.
  destruct (String.eqb_spec k "jsonrpc") as [-> | _].
  { destruct v; try discriminate Hm; reflexivity. }
  destruct (String.eqb_spec k "id") as [-> | _].
  { destruct v as [| b | [z | lit] | s | l | ms];
      try discriminate Hm; try discriminate Hs; [reflexivity |].
    destruct (id_fits z Hm) as [Hu Hi].
    cbv - [Z.leb andb uint64_max int64_min int64_max Z.to_N]. rewrite Hu. reflexivity. }
  destruct (String.eqb_spec k "error") as [-> | _]; [reflexivity |].
  unfold member. cbn [fst].
  destruct (lookup_unknown k Hm) as (H1 & H2 & H3 & H4 & H5). rewrite H5. reflexivity.
Qed.

(** [CallBundleResponse] has a field for the error object: the member stores
    the code and the message there; no member of an error response touches
    [Result], [Raw] or [StatusCode]. *)
Lemma CallBundleResponse_member code message kv acc :
  storable code message kv -> snd acc = [] ->
  snd (member CallBundleResponse.fields acc kv) = []
  /\ CallBundleResponse.Result (fst (member CallBundleResponse.fields acc kv))
     = CallBundleResponse.Result (fst acc)
  /\ CallBundleResponse.Raw (fst (member CallBundleResponse.fields acc kv))
     = CallBundleResponse.Raw (fst acc)
  /\ CallBundleResponse.StatusCode (fst (member CallBundleResponse.fields acc kv))
     = CallBundleResponse.StatusCode (fst acc)
  /\ CallBundleResponse.Error (fst (member CallBundleResponse.fields acc kv))
     = (if isErrorMember kv
        then Some {| errorResult.Code := code; errorResult.Message := message |}
        else CallBundleResponse.Error (fst acc)).
Proof.
  intros H Hacc. unfold isErrorMember. storable_cases kv acc H.
  destruct (String.eqb_spec k "jsonrpc") as [-> | _].
  { destruct v; try discriminate Hm; repeat split. }
  destruct (String.eqb_spec k "id") as [-> | _].
  { destruct v as [| b | [z | lit] | s | l | ms];
      try discriminate Hm; try discriminate Hs; [repeat split |].
    destruct (id_fits z Hm) as [Hu Hi].
    cbv - [Z.leb andb uint64_max int64_min int64_max Z.to_N]. rewrite Hu. repeat split. }
  destruct (String.eqb_spec k "error") as [-> | _].
  { destruct v as [| b | n | s | l | ems]; try discriminate Hm.
    cbv - [errorResult.decode].
    rewrite (errorResult_decodes code message (JObj ems) _ Hm). repeat split. }
  unfold member. cbn [fst].
  destruct (lookup_unknown k Hm) as (H1 & H2 & H3 & H4 & H5). rewrite H3. repeat split.
Qed.

Lemma CallBundleResponse_members code message ms :
  (forall kv, In kv ms -> storable code message kv) ->
  forall acc,
    snd acc = [] ->
    let r := fold_left (member CallBundleResponse.fields) ms acc in
    snd r = []
    /\ CallBundleResponse.Result (fst r) = CallBundleResponse.Result (fst acc)
    /\ CallBundleResponse.Raw (fst r) = CallBundleResponse.Raw (fst acc)
    /\ CallBundleResponse.StatusCode (fst r) = CallBundleResponse.StatusCode (fst acc)
    /\ (existsb isErrorMember ms = true
        \/ CallBundleResponse.Error (fst acc)
           = Some {| errorResult.Code := code; errorResult.Message := message |} ->
        CallBundleResponse.Error (fst r)
        = Some {| errorResult.Code := code; errorResult.Message := message |}).
Proof.
  induction ms as [| kv ms IH]; intros HQ acc Hacc.
  - cbn [fold_left existsb]. repeat split; [exact Hacc |].
    intros [H | H]; [discriminate H | exact H].
  - destruct (CallBundleResponse_member code message kv acc (HQ kv (or_introl eq_refl)) Hacc)
      as (He & Hres & Hraw & Hst & Herr).
    cbn [fold_left existsb].
    destruct (IH (fun kv' Hin => HQ kv' (or_intror Hin))
                 (member CallBundleResponse.fields acc kv) He)
      as (IHe & IHres & IHraw & IHst & IHerr).
    cbv zeta in *.
    rewrite IHres, IHraw, IHst, Hres, Hraw, Hst.
    repeat split; [exact IHe |].
    intros H. apply IHerr. rewrite Herr.
    destruct (isErrorMember kv); [now right |]. exact H.
Qed.

(** A member of an error response is storable unless it is a string id. *)
Lemma storable_members code message ms :
  forallb (replyMember code message) ms = true ->
  existsb isStringId ms = false ->
  forall kv, In kv ms -> storable code message kv.
Proof.
  intros Hall Hid kv Hin. split.
  - rewrite forallb_forall in Hall. now apply Hall.
  - destruct (isStringId kv) eqn:Hs; [| reflexivity].
    rewrite <- Hid. symmetry. apply existsb_exists. exists kv. now split.
Qed.

Lemma string_id_member ms :
  existsb isStringId ms = true -> exists s, In ("id", JStr s) ms.
Proof.
  intros H. apply existsb_exists in H. destruct H as ([k v] & Hin & Hs).
  unfold isStringId in Hs. cbn [fst snd] in Hs.
  apply andb_prop in Hs. destruct Hs as [Hk Hv].
  apply String.eqb_eq in Hk. subst k.
  destruct v as [| b | n | s | l | ms']; try discriminate Hv.
  exists s. exact Hin.
Qed.

Lemma clean_is_response {A} (r : A * list error) :
  snd r = [] -> decoded (let (v, es) := r in (v, hd_error es)) = Ok (fst r).
Proof.
  destruct r as [v es]. cbn [snd fst]. intros ->. reflexivity.
Qed.


End ErrorReplies.

Section RoundTrips.

Context {libs : Collaborators}.

Lemma uint_fits n :
  uint64_ok n = true -> ((0 <=? Z.of_N n) && (Z.of_N n <=? uint64_max))%Z = true.
Proof.
  intros H. unfold uint64_ok in H. rewrite H, andb_true_r. apply Z.leb_le. lia.
Qed.

Lemma bundleResult_round_trip r cur :
  bundleResult.decode (marshal_reply.bundleResult_json r) cur = (r, []).
Proof. destruct r. reflexivity. Qed.

Lemma userStats_round_trip r cur :
  userStats.decode (marshal_reply.userStats_json r) cur = (r, []).
Proof. destruct r, cur. reflexivity. Qed.

Lemma errorResult_round_trip r cur :
  int64_ok (errorResult.Code r) = true ->
  errorResult.decode (marshal_reply.errorResult_json r) cur = (r, []).
Proof.
  destruct r as [code message]. unfold int64_ok. cbn [errorResult.Code]. intros H.
  cbv - [Z.leb andb int64_min int64_max]. rewrite H. reflexivity.
Qed.

Lemma txResult_round_trip r :
  txResult_ok r = true ->
  txResult.decode (marshal_reply.txResult_json r) txResult.zero = (r, []).
Proof.
  destruct r as [a b c d e gasUsed g h i err]. unfold txResult_ok. cbn [txResult.GasUsed].
  intros H. apply uint_fits in H.
  unfold marshal_reply.txResult_json, marshal.omitempty. cbn [txResult.Error].
  destruct (String.eqb_spec err "") as [-> | _];
    cbv - [Z.leb andb uint64_max Z.of_N Z.to_N]; rewrite H, N2Z.id; reflexivity.
Qed.

Lemma txResults_round_trip l :
  forallb txResult_ok l = true ->
  elements txResult.zero txResult.decode (map marshal_reply.txResult_json l) [] = (l, []).
Proof.
  induction l as [| r l IH]; [reflexivity |].
  cbn [forallb]. intros H. apply andb_prop in H. destruct H as [Hr Hl].
  cbn [map elements hd tl]. rewrite (txResult_round_trip r Hr), (IH Hl). reflexivity.
Qed.

Lemma callResult_round_trip r :
  callResult_ok r = true ->
  callResult.decode (marshal_reply.callResult_json r) callResult.zero = (r, []).
Proof.
  destruct r as [a b c d e results sbn tgu]. unfold callResult_ok.
  cbn [callResult.Results callResult.StateBlockNumber callResult.TotalGasUsed].
  intros H. apply andb_prop in H. destruct H as [H Htgu].
  apply andb_prop in H. destruct H as [Hres Hsbn].
  apply uint_fits in Htgu. apply uint_fits in Hsbn.
  destruct results as [l |].
  - cbn [elems] in Hres. pose proof (txResults_round_trip l Hres) as Hl.
    cbv - [Z.leb andb uint64_max Z.of_N Z.to_N elements txResult.zero txResult.decode
           marshal_reply.txResult_json map].
    rewrite Hl, Hsbn, Htgu, !N2Z.id. reflexivity.
  - cbv - [Z.leb andb uint64_max Z.of_N Z.to_N].
    rewrite Hsbn, Htgu, !N2Z.id. reflexivity.
Qed.

Lemma CallBundleResponse_round_trip r :
  CallBundleResponse_ok r = true ->
  CallBundleResponse.decode (marshal_reply.CallBundleResponse_json r) CallBundleResponse.zero
  = (r, []).
Proof.
  destruct r as [id version result error raw status]. unfold CallBundleResponse_ok.
  cbn [CallBundleResponse.ID CallBundleResponse.Result CallBundleResponse.Error
       CallBundleResponse.StatusCode].
  intros H. apply andb_prop in H. destruct H as [H Hstatus].
  apply andb_prop in H. destruct H as [H Herror].
  apply andb_prop in H. destruct H as [Hid Hresult].
  apply uint_fits in Hid. unfold int64_ok in Hstatus.
  assert (Hres : ptr callResult.zero callResult.decode
                   (marshal_reply.pointer marshal_reply.callResult_json result) None
                 = (result, [])).
  { destruct result as [c |]; [| reflexivity].
    unfold ptr, marshal_reply.pointer. rewrite (callResult_round_trip c Hresult).
    reflexivity. }
  assert (Herr : ptr errorResult.zero errorResult.decode
                   (marshal_reply.pointer marshal_reply.errorResult_json error) None
                 = (error, [])).
  { destruct error as [e |]; [| reflexivity].
    unfold ptr, marshal_reply.pointer.
    rewrite (errorResult_round_trip e errorResult.zero Herror). reflexivity. }
  cbv - [Z.leb andb uint64_max int64_min int64_max Z.of_N Z.to_N ptr
         callResult.zero callResult.decode errorResult.zero errorResult.decode
         marshal_reply.pointer marshal_reply.callResult_json
         marshal_reply.errorResult_json].
  rewrite Hid, Hres, Herr, Hstatus, N2Z.id. reflexivity.
Qed.

(** The reply of a gateway whose request goes out, whatever the request. *)
Lemma gateway_decodes {A} (d : dec A) (zero : A) f answer reply Method params t :
  (forall j, exists payload, json_encode j = Ok payload) ->
  url_Parse_ok (Rpc f) = true ->
  (forall req, client_Do req = Ok answer) ->
  json_scan (http.ResponseBody answer) = Some reply ->
  fst ((resp <- requestRPC f Method params ;;
        ret (decoded (json_Unmarshal d resp zero))) t) =
  Returned (decoded (let (v, es) := d reply zero in (v, hd_error es))).
Proof.
  intros Henc Hurl Hdo Hscan.
  destruct (Henc (envelope Method params)) as [payload Hpayload].
  rewrite (gateway_reply d zero f Method params t payload answer Hpayload Hurl (Hdo _)).
  unfold json_Unmarshal. rewrite Hscan. reflexivity.
Qed.

(** X14. [SendBundle] hands the relay's reply to its caller unchanged: when
    the reply is the JSON of a response [r] (an id of 64 bits, the version, the
    bundle hash or a null result), the call returns exactly [r] and a nil
    error. *)
Theorem SendBundle_returns_the_reply f answer r transactions blockNumber t :
  (forall j, exists payload, json_encode j = Ok payload) ->
  url_Parse_ok (Rpc f) = true ->
  (forall req, client_Do req = Ok answer) ->
  json_scan (http.ResponseBody answer) = Some (marshal_reply.SendBundleResponse_json r) ->
  uint64_ok (SendBundleResponse.ID r) = true ->
  (1 <= len transactions)%nat ->
  fst (SendBundle f transactions blockNumber t) = Returned (Ok r).
Proof.
  intros Henc Hurl Hdo Hscan Hid Hlen.
  assert (Hguard : (len transactions <? 1)%nat = false) by (apply Nat.ltb_ge; exact Hlen).
  unfold SendBundle. rewrite Hguard.
  rewrite (gateway_decodes _ _ f answer _ _ _ t Henc Hurl Hdo Hscan).
  destruct r as [id version result]. cbn [SendBundleResponse.ID] in Hid.
  apply uint_fits in Hid.
  assert (Hres : ptr bundleResult.zero bundleResult.decode
                   (marshal_reply.pointer marshal_reply.bundleResult_json result) None
                 = (result, [])).
  { destruct result as [b |]; [| reflexivity].
    unfold ptr, marshal_reply.pointer.
    rewrite (bundleResult_round_trip b bundleResult.zero). reflexivity. }
  cbv - [Z.leb andb uint64_max Z.of_N Z.to_N ptr bundleResult.zero bundleResult.decode
         marshal_reply.pointer marshal_reply.bundleResult_json].
  rewrite Hid, Hres, N2Z.id. reflexivity.
Qed.

(** X15. [GetUserStats] returns the statistics of the reply without loss:
    when the reply is the JSON of a response [r], with the priority flag and
    the six amounts under their snake-case names, the call returns exactly
    [r] and a nil error. *)
Theorem GetUserStats_returns_the_statistics f answer r blockNumber t :
  (forall j, exists payload, json_encode j = Ok payload) ->
  url_Parse_ok (Rpc f) = true ->
  (forall req, client_Do req = Ok answer) ->
  json_scan (http.ResponseBody answer) = Some (marshal_reply.UserStatsResponse_json r) ->
  uint64_ok (UserStatsResponse.ID r) = true ->
  fst (GetUserStats f blockNumber t) = Returned (Ok r).
Proof.
  intros Henc Hurl Hdo Hscan Hid.
  unfold GetUserStats.
  rewrite (gateway_decodes _ _ f answer _ _ _ t Henc Hurl Hdo Hscan).
  destruct r as [id version result]. cbn [UserStatsResponse.ID] in Hid.
  apply uint_fits in Hid.
  assert (Hres : ptr userStats.zero userStats.decode
                   (marshal_reply.pointer marshal_reply.userStats_json result) None
                 = (result, [])).
  { destruct result as [u |]; [| reflexivity].
    unfold ptr, marshal_reply.pointer.
    rewrite (userStats_round_trip u userStats.zero). reflexivity. }
  cbv - [Z.leb andb uint64_max Z.of_N Z.to_N ptr userStats.zero userStats.decode
         marshal_reply.pointer marshal_reply.userStats_json].
  rewrite Hid, Hres, N2Z.id. reflexivity.
Qed.

(** X16. [CallBundle] returns the simulation of the reply without loss: when
    the reply is the JSON of a response [r] whose integers fit their fields,
    with a result (totals and one entry per transaction, in order), an error
    object, both or neither, the call returns exactly [r] and a nil error. *)
Theorem CallBundle_returns_the_simulation f answer r transaction blockNumber t :
  (forall j, exists payload, json_encode j = Ok payload) ->
  url_Parse_ok (Rpc f) = true ->
  (forall req, client_Do req = Ok answer) ->
  json_scan (http.ResponseBody answer) = Some (marshal_reply.CallBundleResponse_json r) ->
  CallBundleResponse_ok r = true ->
  (1 <= len transaction)%nat ->
  fst (CallBundle f transaction blockNumber t) = Returned (Ok r).
Proof.
  intros Henc Hurl Hdo Hscan Hok Hlen.
  assert (Hguard : (len transaction <? 1)%nat = false) by (apply Nat.ltb_ge; exact Hlen).
  unfold CallBundle. rewrite Hguard.
  rewrite (gateway_decodes _ _ f answer _ _ _ t Henc Hurl Hdo Hscan).
  rewrite (CallBundleResponse_round_trip r Hok). reflexivity.
Qed.

(** X17. [SendPrivateTransaction] returns the acknowledgement of the reply:
    when the reply is the JSON of a response [r] (version, an id of 64 bits
    and the result string), the call returns exactly [r] and a nil error. *)
Theorem SendPrivateTransaction_returns_the_reply f answer r tx maxBlockNumber t :
  (forall j, exists payload, json_encode j = Ok payload) ->
  url_Parse_ok (Rpc f) = true ->
  (forall req, client_Do req = Ok answer) ->
  json_scan (http.ResponseBody answer)
  = Some (marshal_reply.SendPrivateTxResponse_json r) ->
  int64_ok (SendPrivateTxResponse.Id r) = true ->
  fst (SendPrivateTransaction f tx maxBlockNumber t) = Returned (Ok r).
Proof.
  intros Henc Hurl Hdo Hscan Hid.
  unfold SendPrivateTransaction.
  rewrite (gateway_decodes _ _ f answer _ _ _ t Henc Hurl Hdo Hscan).
  destruct r as [version id result]. cbn [SendPrivateTxResponse.Id] in Hid.
  unfold int64_ok in Hid.
  cbv - [Z.leb andb int64_min int64_max]. rewrite Hid. reflexivity.
Qed.

End RoundTrips.

Section Header.

Context {libs : Collaborators}.

Lemma length_append (a b : string) :
  String.length (a +++ b) = (String.length a + String.length b)%nat.
Proof.
  induction a as [| c a IH]; [reflexivity |]. cbn. now rewrite IH.
Qed.

Lemma append_cancel (a x y : string) : a +++ x = a +++ y -> x = y.
Proof.
  induction a as [| c a IH]; [trivial |]. cbn. intros [= H]. now apply IH.
Qed.

Lemma length_hexEncodeToString (b : bytes) :
  String.length (hexutil.hexEncodeToString b) = (2 * List.length b)%nat.
Proof.
  induction b as [| x b IH]; [reflexivity |].
  cbn [hexutil.hexEncodeToString String.length List.length]. rewrite IH. lia.
Qed.

Lemma digit_inj (a b : N) :
  (a < 16)%N -> (b < 16)%N -> strconv.digit a = strconv.digit b -> a = b.
Proof.
  intros Ha Hb H.
  pose proof (hexDigit_digit a Ha) as Ea. pose proof (hexDigit_digit b Hb) as Eb.
  rewrite H, Eb in Ea. now injection Ea.
Qed.

Lemma hexEncodeToString_inj (a : bytes) :
  forall b, hexutil.hexEncodeToString a = hexutil.hexEncodeToString b -> a = b.
Proof.
  induction a as [| x a IH]; intros [| y b] H; try reflexivity; try discriminate H.
  cbn [hexutil.hexEncodeToString] in H. injection H as Hhi Hlo Htl.
  pose proof (Byte.to_N_bounded x) as Hx. pose proof (Byte.to_N_bounded y) as Hy.
  assert (Hdivx : (Byte.to_N x / 16 < 16)%N)
    by (apply N.Div0.div_lt_upper_bound; lia).
  assert (Hdivy : (Byte.to_N y / 16 < 16)%N)
    by (apply N.Div0.div_lt_upper_bound; lia).
  assert (Hmodx : (Byte.to_N x mod 16 < 16)%N) by (apply N.mod_lt; discriminate).
  assert (Hmody : (Byte.to_N y mod 16 < 16)%N) by (apply N.mod_lt; discriminate).
  apply digit_inj in Hhi; [| assumption | assumption].
  apply digit_inj in Hlo; [| assumption | assumption].
  assert (Hn : Byte.to_N x = Byte.to_N y).
  { rewrite (N.div_mod (Byte.to_N x) 16), (N.div_mod (Byte.to_N y) 16) by discriminate.
    now rewrite Hhi, Hlo. }
  assert (Hxy : x = y).
  { pose proof (Byte.of_to_N x) as Ex. pose proof (Byte.of_to_N y) as Ey.
    rewrite Hn, Ey in Ex. now injection Ex. }
  subst y. f_equal. now apply IH.
Qed.


(** X19. When the hash function gives 32 bytes, as keccak256 does, what
    [requestRPC] hands to the signer is the hash of the prefix
    "\x19Ethereum Signed Message:\n", the length "66" and the 66 characters
    of the hex-encoded digest of the serialized envelope. *)
Theorem signed_message_of_32_byte_digest f Method params t evs digestHash :
  (forall data, List.length (crypto_Keccak256 data) = 32%nat) ->
  snd (requestRPC f Method params t) = t ++ evs ->
  In (Signed digestHash) evs ->
  exists payload,
    json_encode (envelope Method params) = Ok payload
    /\ String.length (hexutil.Encode (crypto_Keccak256 payload)) = 66%nat
    /\ digestHash
       = crypto_Keccak256
           (list_byte_of_string
              (TextHash_prefix +++ "66" +++ hexutil.Encode (crypto_Keccak256 payload))).
Proof.
  intros Hlen Hrun Hin. rewrite requestRPC_run in Hrun.
  destruct (json_encode (envelope Method params)) as [payload | e].
  - destruct (url_Parse_ok (Rpc f)).
    + cbn [snd] in Hrun. apply app_inv_head in Hrun. subst evs.
      destruct Hin as [Heq | [Heq | []]]; [| discriminate Heq].
      injection Heq as <-. exists payload.
      assert (H66 : String.length (hexutil.Encode (crypto_Keccak256 payload)) = 66%nat).
      { unfold hexutil.Encode.
        rewrite length_append, length_hexEncodeToString, Hlen. reflexivity. }
      split; [reflexivity | split; [exact H66 |]].
      unfold messageHash, TextHash.
      rewrite length_list_byte_of_string, string_of_list_byte_of_string, H66.
      reflexivity.
    + cbn [snd] in Hrun. rewrite <- (app_nil_r t) in Hrun at 1.
      apply app_inv_head in Hrun. subst evs. destruct Hin.
  - cbn [snd] in Hrun. rewrite <- (app_nil_r t) in Hrun at 1.
    apply app_inv_head in Hrun. subst evs. destruct Hin.
Qed.

(** X20. [SendPrivateTransaction] sends its two arguments as the caller
    wrote them: every request it posts is the serialized envelope of the
    method "eth_sendPrivateTransaction" whose parameter object holds the
    transaction under "txs", the deadline string under "maxBlockNumber" and
    [null] preferences. *)
Theorem SendPrivateTransaction_posts_its_arguments f tx maxBlockNumber t evs req :
  snd (SendPrivateTransaction f tx maxBlockNumber t) = t ++ evs ->
  In (Posted req) evs ->
  let args := JObj [("txs", JStr tx);
                    ("maxBlockNumber", JStr maxBlockNumber);
                    ("preferences", JNull)] in
  json_encode (JObj [("jsonrpc", JStr "2.0");
                     ("id", JNum (Int 1));
                     ("method", JStr "eth_sendPrivateTransaction");
                     ("params", JArr [args; args])]) = Ok (http.Body req).
Proof.
  intros Hrun Hin.
  exact (proj1 (posted_body _ _ f _ _ t evs req Hrun Hin)).
Qed.

End Header.

(** * The further properties on concrete runs *)


Lemma RelayDefaultRPC_resolves_witness :
  snd (RelayDefaultRPC "goerli") = None
  /\ prefix "https://" (fst (RelayDefaultRPC "goerli")) = true
  /\ RelayDefaultRPC "ropsten" = ("", Some (errNetType "ropsten")).
Proof.
  destruct (RelayDefaultRPC_resolves "goerli") as (Hiff & Hknown & _ & _).
  destruct (RelayDefaultRPC_resolves "ropsten") as (_ & _ & Hunknown & _).
  assert (H : snd (RelayDefaultRPC "goerli") = None) by (apply Hiff; right; reflexivity).
  split; [exact H | split; [exact (proj1 (Hknown H)) |]].
  apply Hunknown. discriminate.
Defined.

Lemma BlockNumber_round_trip_witness :
  ((255 <= 18446744073709551615)%N /\ (256 <= 18446744073709551615)%N)
  /\ hexutil.DecodeUint64 (HextoBlockNumber 255%N) = Some 255%N
  /\ hexutil.DecodeUint64 (WrapperBlockNumber 255%N) = Some 255%N
  /\ (HextoBlockNumber 255%N = HextoBlockNumber 256%N -> 255%N = 256%N).
Proof.
  assert (H1 : (255 <= 18446744073709551615)%N) by lia.
  assert (H2 : (256 <= 18446744073709551615)%N) by lia.
  split; [exact (conj H1 H2) |].
  exact (BlockNumber_round_trip 255%N 256%N H1 H2).
Defined.

Lemma New_exits_without_key_witness :
  let libs := Stub.relayAccepts in
  let getenv := fun name : string => if String.eqb name "PRIVATE_KEY" then "" else "01" in
  let rejected := fun name : string => if String.eqb name "PrivateKey" then "zz" else "01" in
  (getenv "PRIVATE_KEY" = ""
   /\ exists e, crypto_HexToECDSA (rejected "PrivateKey") = Err e)
  /\ (fst (New getenv "mainnet" []) = Exited 1%Z
      /\ fst (FlashbotGo.New getenv "mainnet" []) <> Exited 1%Z)
  /\ (fst (FlashbotGo.New rejected "goerli" []) = Exited 1%Z
      /\ fst (New rejected "goerli" []) <> Exited 1%Z).
Proof.
  intros libs getenv rejected.
  assert (H1 : getenv "PRIVATE_KEY" = "") by reflexivity.
  assert (H2 : exists e, crypto_HexToECDSA (rejected "PrivateKey") = Err e)
    by (eexists; reflexivity).
  split; [exact (conj H1 H2) |].
  destruct (New_exits_without_key getenv "mainnet" []) as (Hnew & Hgo & _ & _).
  destruct (New_exits_without_key rejected "goerli" []) as (Hnew' & Hgo' & _ & _).
  split; split.
  - exact (proj2 Hnew (or_introl H1)).
  - intros H. destruct (proj1 Hgo H) as [He | [e He]]; discriminate He.
  - exact (proj2 Hgo' (or_intror H2)).
  - intros H. destruct (proj1 Hnew' H) as [He | [e He]]; discriminate He.
Defined.

Lemma New_returns_resolved_client_witness :
  let libs := Stub.relayAccepts in
  let getenv := fun _ : string => "01" in
  let f := {| Rpc := "https://relay-goerli.flashbots.net"; Key := 1%N |} in
  New getenv "goerli" [] = (Returned f, [])
  /\ crypto_HexToECDSA (getenv "PRIVATE_KEY") = Ok (Key f)
  /\ Rpc f = fst (RelayDefaultRPC "goerli")
  /\ prefix "https://" (Rpc f) = true.
Proof.
  intros libs getenv f.
  assert (H : New getenv "goerli" [] = (Returned f, [])) by reflexivity.
  split; [exact H |].
  destruct (New_returns_resolved_client getenv "goerli" [] f [] H)
    as (_ & _ & Hkey & Hrpc & Hknown).
  split; [exact Hkey | split; [exact Hrpc |]].
  exact (proj1 (Hknown (or_intror eq_refl))).
Defined.

Lemma requestRPC_signs_then_posts_once_witness :
  let down := Stub.networkDown in
  let up := Stub.relayAccepts in
  let payload :=
    list_byte_of_string
      (Stub.print (envelope MethodGetUserStats [PUint64 255%N])) in
  (snd (@requestRPC down (Stub.client down 1%N) MethodGetUserStats [PUint64 255%N] [])
   = [Signed (@messageHash down payload);
      Posted (@postedRequest down (Stub.client down 1%N) payload)]
   /\ fst (@requestRPC down (Stub.client down 1%N) MethodGetUserStats [PUint64 255%N] [])
      = Exited 1%Z)
  /\ (snd (@requestRPC up (Stub.client up 1%N) MethodGetUserStats [PUint64 255%N] [])
      = [Signed (@messageHash up payload);
         Posted (@postedRequest up (Stub.client up 1%N) payload)]
      /\ fst (@requestRPC up (Stub.client up 1%N) MethodGetUserStats [PUint64 255%N] [])
         = Returned (list_byte_of_string (Stub.print Stub.acceptedObject))).
Proof.
  intros down up payload. split.
  - destruct (@requestRPC_signs_then_posts_once down (Stub.client down 1%N)
                MethodGetUserStats [PUint64 255%N] [])
      as [(p & Henc & _ & Htrace & Hend) | (_ & [[e He] | Hurl])];
      [| discriminate He | discriminate Hurl].
    injection Henc as <-. split; [exact Htrace |].
    destruct Hend as [(e & _ & Hexit) | (resp & Hdo & _)];
      [exact Hexit | discriminate Hdo].
  - destruct (@requestRPC_signs_then_posts_once up (Stub.client up 1%N)
                MethodGetUserStats [PUint64 255%N] [])
      as [(p & Henc & _ & Htrace & Hend) | (_ & [[e He] | Hurl])];
      [| discriminate He | discriminate Hurl].
    injection Henc as <-. split; [exact Htrace |].
    destruct Hend as [(e & Hdo & _) | (resp & Hdo & Hret)];
      [discriminate Hdo |].
    injection Hdo as <-. exact Hret.
Defined.

Lemma requestRPC_request_shape_witness :
  let libs := Stub.relayAccepts in
  let f := Stub.client libs 1%N in
  let payload :=
    list_byte_of_string (Stub.print (envelope MethodGetUserStats [PUint64 255%N])) in
  let req := postedRequest f payload in
  let evs := [Signed (messageHash payload); Posted req] in
  (snd (requestRPC f MethodGetUserStats [PUint64 255%N] []) = [] ++ evs
   /\ In (Posted req) evs)
  /\ http.Method req = "POST"
  /\ http.URL req = "https://relay.flashbots.net"
  /\ map fst (http.Header req) = ["Content-Type"; "Accept"; "X-Flashbots-Signature"].
Proof.
  intros libs f payload req evs.
  assert (H1 : snd (requestRPC f MethodGetUserStats [PUint64 255%N] []) = [] ++ evs)
    by (vm_compute; reflexivity).
  assert (H2 : In (Posted req) evs) by (right; left; reflexivity).
  split; [exact (conj H1 H2) |].
  destruct (requestRPC_request_shape f MethodGetUserStats [PUint64 255%N] [] evs req H1 H2)
    as (Hm & Hu & Hh & _).
  exact (conj Hm (conj Hu Hh)).
Defined.


Lemma CallBundle_empty_witness :
  let libs := Stub.relayAccepts in
  let f := Stub.client libs 1%N in
  len (@None (list string)) = 0%nat
  /\ CallBundle f None 255%N [] = (Returned (Err errorTransaction), []).
Proof.
  intros libs f.
  assert (H : len (@None (list string)) = 0%nat) by reflexivity.
  split; [exact H |].
  exact (CallBundle_empty f None 255%N [] H).
Defined.

Lemma gateway_errors_witness :
  let libs := Stub.relayAccepts in
  let f := Stub.client libs 1%N in
  fst (SendBundle f (Some []) 255%N []) = Returned (Err errorTransaction)
  /\ (errorTransaction = errorTransaction \/ isDecodeError errorTransaction = true).
Proof.
  intros libs f.
  assert (H : fst (SendBundle f (Some []) 255%N []) = Returned (Err errorTransaction))
    by reflexivity.
  split; [exact H |].
  exact (proj1 (gateway_errors f (Some []) 255%N "0x02f8" "0x100" [] errorTransaction
                  (or_introl H))).
Defined.

Lemma reply_not_json_is_syntax_error_witness :
  let answer := {| http.StatusCode := 502;
                   http.ResponseBody := list_byte_of_string "<html>Bad Gateway</html>" |} in
  let libs := Stub.libs (Ok answer) [] in
  let f := Stub.client libs 1%N in
  ((forall j, exists payload, json_encode j = Ok payload)
   /\ url_Parse_ok (Rpc f) = true
   /\ (forall req, client_Do req = Ok answer)
   /\ json_scan (http.ResponseBody answer) = None
   /\ (1 <= len (Some ["0x01"]))%nat)
  /\ fst (SendBundle f (Some ["0x01"]) 255%N []) = Returned (Err SyntaxError).
Proof.
  intros answer libs f.
  assert (H1 : forall j, exists payload, json_encode j = Ok payload)
    by (intros j; eexists; reflexivity).
  assert (H2 : url_Parse_ok (Rpc f) = true) by reflexivity.
  assert (H3 : forall req, client_Do req = Ok answer) by (intros req; reflexivity).
  assert (H4 : json_scan (http.ResponseBody answer) = None) by reflexivity.
  assert (H5 : (1 <= len (Some ["0x01"]))%nat) by (cbn; lia).
  split; [exact (conj H1 (conj H2 (conj H3 (conj H4 H5)))) |].
  exact (proj1 (reply_not_json_is_syntax_error f answer (Some ["0x01"]) 255%N
                  "0x02f8" "0x100" [] H1 H2 H3 H4 H5)).
Defined.

Lemma reply_with_string_id_is_rejected_witness :
  let ms := [("jsonrpc", JStr "2.0"); ("id", JStr "1");
             ("result", JObj [("bundleHash", JStr "0x2228f5d8")])] in
  let answer := {| http.StatusCode := 200;
                   http.ResponseBody := list_byte_of_string (Stub.print (JObj ms)) |} in
  let libs := Stub.libs (Ok answer) [JObj ms] in
  let f := Stub.client libs 1%N in
  ((forall j, exists payload, json_encode j = Ok payload)
   /\ url_Parse_ok (Rpc f) = true
   /\ (forall req, client_Do req = Ok answer)
   /\ json_scan (http.ResponseBody answer) = Some (JObj ms)
   /\ In ("id", JStr "1") ms
   /\ (1 <= len (Some ["0x01"]))%nat)
  /\ exists e, fst (SendBundle f (Some ["0x01"]) 255%N []) = Returned (Err e)
               /\ isTypeError e = true.
Proof.
  intros ms answer libs f.
  assert (H1 : forall j, exists payload, json_encode j = Ok payload)
    by (intros j; eexists; reflexivity).
  assert (H2 : url_Parse_ok (Rpc f) = true) by reflexivity.
  assert (H3 : forall req, client_Do req = Ok answer) by (intros req; reflexivity).
  assert (H4 : json_scan (http.ResponseBody answer) = Some (JObj ms)) by reflexivity.
  assert (H5 : In ("id", JStr "1") ms) by (right; left; reflexivity).
  assert (H6 : (1 <= len (Some ["0x01"]))%nat) by (cbn; lia).
  split; [exact (conj H1 (conj H2 (conj H3 (conj H4 (conj H5 H6))))) |].
  exact (proj1 (reply_with_string_id_is_rejected f answer ms "1" (Some ["0x01"]) 255%N
                  "0x02f8" "0x100" [] H1 H2 H3 H4 H5 H6)).
Defined.

Lemma unknown_member_is_ignored_witness :
  unknownMember "data" = true
  /\ forall cur,
      CallBundleResponse.decode
        (JObj ([("id", JNum (Int 1))] ++ ("data", JStr "0x08c379a0") :: [("error", JNull)]))
        cur
      = CallBundleResponse.decode (JObj ([("id", JNum (Int 1))] ++ [("error", JNull)])) cur.
Proof.
  assert (H : unknownMember "data" = true) by reflexivity.
  split; [exact H |].
  exact (proj1 (proj2 (proj2 (unknown_member_is_ignored "data" (JStr "0x08c379a0")
                                [("id", JNum (Int 1))] [("error", JNull)] H)))).
Defined.

Lemma empty_reply_is_a_zero_response_witness :
  let reply := JObj [("status", JStr "ok")] in
  let answer := {| http.StatusCode := 200;
                   http.ResponseBody := list_byte_of_string (Stub.print reply) |} in
  let libs := Stub.libs (Ok answer) [reply] in
  let f := Stub.client libs 1%N in
  ((forall j, exists payload, json_encode j = Ok payload)
   /\ url_Parse_ok (Rpc f) = true
   /\ (forall req, client_Do req = Ok answer)
   /\ json_scan (http.ResponseBody answer) = Some reply
   /\ (exists ms, reply = JObj ms
                  /\ forallb (fun kv => unknownMember (fst kv)) ms = true)
   /\ (1 <= len (Some ["0x01"]))%nat)
  /\ fst (SendBundle f (Some ["0x01"]) 255%N []) = Returned (Ok SendBundleResponse.zero).
Proof.
  intros reply answer libs f.
  assert (H1 : forall j, exists payload, json_encode j = Ok payload)
    by (intros j; eexists; reflexivity).
  assert (H2 : url_Parse_ok (Rpc f) = true) by reflexivity.
  assert (H3 : forall req, client_Do req = Ok answer) by (intros req; reflexivity).
  assert (H4 : json_scan (http.ResponseBody answer) = Some reply) by reflexivity.
  assert (H5 : exists ms, reply = JObj ms
                          /\ forallb (fun kv => unknownMember (fst kv)) ms = true)
    by (eexists; split; reflexivity).
  assert (H6 : (1 <= len (Some ["0x01"]))%nat) by (cbn; lia).
  split; [exact (conj H1 (conj H2 (conj H3 (conj H4 (conj H5 H6))))) |].
  exact (proj1 (empty_reply_is_a_zero_response f answer reply (Some ["0x01"]) 255%N
                  "0x02f8" "0x100" [] H1 H2 H3 H4 (or_intror H5) H6)).
Defined.

Lemma SendBundle_returns_the_reply_witness :
  let r := {| SendBundleResponse.ID := 1;
              SendBundleResponse.Version := "2.0";
              SendBundleResponse.Result :=
                Some {| bundleResult.BundleHash := "0x2228f5d8" |} |} in
  let reply := marshal_reply.SendBundleResponse_json r in
  let answer := {| http.StatusCode := 200;
                   http.ResponseBody := list_byte_of_string (Stub.print reply) |} in
  let libs := Stub.libs (Ok answer) [reply] in
  let f := Stub.client libs 1%N in
  ((forall j, exists payload, json_encode j = Ok payload)
   /\ url_Parse_ok (Rpc f) = true
   /\ (forall req, client_Do req = Ok answer)
   /\ json_scan (http.ResponseBody answer) = Some reply
   /\ uint64_ok (SendBundleResponse.ID r) = true
   /\ (1 <= len (Some ["0x01"]))%nat)
  /\ fst (SendBundle f (Some ["0x01"]) 255%N []) = Returned (Ok r).
Proof.
  intros r reply answer libs f.
  assert (H1 : forall j, exists payload, json_encode j = Ok payload)
    by (intros j; eexists; reflexivity).
  assert (H2 : url_Parse_ok (Rpc f) = true) by reflexivity.
  assert (H3 : forall req, client_Do req = Ok answer) by (intros req; reflexivity).
  assert (H4 : json_scan (http.ResponseBody answer) = Some reply) by reflexivity.
  assert (H5 : uint64_ok (SendBundleResponse.ID r) = true) by reflexivity.
  assert (H6 : (1 <= len (Some ["0x01"]))%nat) by (cbn; lia).
  split; [exact (conj H1 (conj H2 (conj H3 (conj H4 (conj H5 H6))))) |].
  exact (SendBundle_returns_the_reply f answer r (Some ["0x01"]) 255%N [] H1 H2 H3 H4 H5 H6).
Defined.

Lemma GetUserStats_returns_the_statistics_witness :
  let r := {| UserStatsResponse.ID := 1;
              UserStatsResponse.Version := "2.0";
              UserStatsResponse.Result :=
                Some {| userStats.IsHighPriority := true;
                        userStats.AllTimeMinerPayments := "1280749594841588639";
                        userStats.AllTimeGasSimulated := "30049470846";
                        userStats.Last7dMinerPayments := "1280749594841588638";
                        userStats.Last7dGasSimulated := "30049470845";
                        userStats.Last1dMinerPayments := "142305510537954293";
                        userStats.Last1dGasSimulated := "2731770076" |} |} in
  let reply := marshal_reply.UserStatsResponse_json r in
  let answer := {| http.StatusCode := 200;
                   http.ResponseBody := list_byte_of_string (Stub.print reply) |} in
  let libs := Stub.libs (Ok answer) [reply] in
  let f := Stub.client libs 1%N in
  ((forall j, exists payload, json_encode j = Ok payload)
   /\ url_Parse_ok (Rpc f) = true
   /\ (forall req, client_Do req = Ok answer)
   /\ json_scan (http.ResponseBody answer) = Some reply
   /\ uint64_ok (UserStatsResponse.ID r) = true)
  /\ fst (GetUserStats f 255%N []) = Returned (Ok r).
Proof.
  intros r reply answer libs f.
  assert (H1 : forall j, exists payload, json_encode j = Ok payload)
    by (intros j; eexists; reflexivity).
  assert (H2 : url_Parse_ok (Rpc f) = true) by reflexivity.
  assert (H3 : forall req, client_Do req = Ok answer) by (intros req; reflexivity).
  assert (H4 : json_scan (http.ResponseBody answer) = Some reply)
    by (vm_compute; reflexivity).
  assert (H5 : uint64_ok (UserStatsResponse.ID r) = true) by reflexivity.
  split; [exact (conj H1 (conj H2 (conj H3 (conj H4 H5)))) |].
  exact (GetUserStats_returns_the_statistics f answer r 255%N [] H1 H2 H3 H4 H5).
Defined.

Lemma CallBundle_returns_the_simulation_witness :
  let tx1 := {| txResult.CoinbaseDiff := "10000000000063000";
                txResult.EthSentToCoinbase := "10000000000000000";
                txResult.FromAddress := "0x02a727155aef8609c9f7f2179b2a1f560b39f5a0";
                txResult.GasFees := "63000";
                txResult.GasPrice := "476190476193";
                txResult.GasUsed := 21000%N;
                txResult.ToAddress := "0x73625f59cadc5009cb458b751b3e7b6b48c06f2c";
                txResult.TxHash := "0x669b4704a7d993a946cdd6e2f95233f308ce0c4649d2e04944e8299efcaa098a";
                txResult.Value := "0x";
                txResult.Error := "" |} in
  let tx2 := {| txResult.CoinbaseDiff := "0";
                txResult.EthSentToCoinbase := "0";
                txResult.FromAddress := "0x02a727155aef8609c9f7f2179b2a1f560b39f5a0";
                txResult.GasFees := "0";
                txResult.GasPrice := "0";
                txResult.GasUsed := 21432%N;
                txResult.ToAddress := "0x73625f59cadc5009cb458b751b3e7b6b48c06f2c";
                txResult.TxHash := "0xa839ee83465657cac01adc1d50d96c1b586ed498120a84a64749c0034b4f19fa";
                txResult.Value := "0x";
                txResult.Error := "execution reverted" |} in
  let r := {| CallBundleResponse.ID := 1;
              CallBundleResponse.Version := "2.0";
              CallBundleResponse.Result :=
                Some {| callResult.BundleGasPrice := "476190476193";
                        callResult.BundleHash := "0x73b1e258c7a42fd0230b2fd05529c5d4b6fcb66c";
                        callResult.CoinbaseDiff := "20000000000126000";
                        callResult.EthSentToCoinbase := "20000000000000000";
                        callResult.GasFees := "126000";
                        callResult.Results := Some [tx1; tx2];
                        callResult.StateBlockNumber := 5221585%N;
                        callResult.TotalGasUsed := 42432%N |};
              CallBundleResponse.Error := None;
              CallBundleResponse.Raw := "";
              CallBundleResponse.StatusCode := 0 |} in
  let reply := marshal_reply.CallBundleResponse_json r in
  let answer := {| http.StatusCode := 200;
                   http.ResponseBody := list_byte_of_string (Stub.print reply) |} in
  let libs := Stub.libs (Ok answer) [reply] in
  let f := Stub.client libs 1%N in
  ((forall j, exists payload, json_encode j = Ok payload)
   /\ url_Parse_ok (Rpc f) = true
   /\ (forall req, client_Do req = Ok answer)
   /\ json_scan (http.ResponseBody answer) = Some reply
   /\ CallBundleResponse_ok r = true
   /\ (1 <= len (Some ["0x01"; "0x02"]))%nat)
  /\ fst (CallBundle f (Some ["0x01"; "0x02"]) 255%N []) = Returned (Ok r).
Proof.
  intros tx1 tx2 r reply answer libs f.
  assert (H1 : forall j, exists payload, json_encode j = Ok payload)
    by (intros j; eexists; reflexivity).
  assert (H2 : url_Parse_ok (Rpc f) = true) by reflexivity.
  assert (H3 : forall req, client_Do req = Ok answer) by (intros req; reflexivity).
  assert (H4 : json_scan (http.ResponseBody answer) = Some reply)
    by (vm_compute; reflexivity).
  assert (H5 : CallBundleResponse_ok r = true) by (vm_compute; reflexivity).
  assert (H6 : (1 <= len (Some ["0x01"; "0x02"]))%nat) by (cbn; lia).
  split; [exact (conj H1 (conj H2 (conj H3 (conj H4 (conj H5 H6))))) |].
  exact (CallBundle_returns_the_simulation f answer r (Some ["0x01"; "0x02"]) 255%N []
           H1 H2 H3 H4 H5 H6).
Defined.

Lemma SendPrivateTransaction_returns_the_reply_witness :
  let r := {| SendPrivateTxResponse.JsonRPC := "2.0";
              SendPrivateTxResponse.Id := 1;
              SendPrivateTxResponse.Result :=
                "0x45df1bc3de765927b053ec029fc9d15d6321945b23cac0614eb0b5e61f3a2f2a" |} in
  let reply := marshal_reply.SendPrivateTxResponse_json r in
  let answer := {| http.StatusCode := 200;
                   http.ResponseBody := list_byte_of_string (Stub.print reply) |} in
  let libs := Stub.libs (Ok answer) [reply] in
  let f := Stub.client libs 1%N in
  ((forall j, exists payload, json_encode j = Ok payload)
   /\ url_Parse_ok (Rpc f) = true
   /\ (forall req, client_Do req = Ok answer)
   /\ json_scan (http.ResponseBody answer) = Some reply
   /\ int64_ok (SendPrivateTxResponse.Id r) = true)
  /\ fst (SendPrivateTransaction f "0x02f8" "0x100" []) = Returned (Ok r).
Proof.
  intros r reply answer libs f.
  assert (H1 : forall j, exists payload, json_encode j = Ok payload)
    by (intros j; eexists; reflexivity).
  assert (H2 : url_Parse_ok (Rpc f) = true) by reflexivity.
  assert (H3 : forall req, client_Do req = Ok answer) by (intros req; reflexivity).
  assert (H4 : json_scan (http.ResponseBody answer) = Some reply)
    by (vm_compute; reflexivity).
  assert (H5 : int64_ok (SendPrivateTxResponse.Id r) = true) by reflexivity.
  split; [exact (conj H1 (conj H2 (conj H3 (conj H4 H5)))) |].
  exact (SendPrivateTransaction_returns_the_reply f answer r "0x02f8" "0x100" []
           H1 H2 H3 H4 H5).
Defined.


Lemma signed_message_of_32_byte_digest_witness :
  let libs := libs32 (Err (LibraryError "dial tcp: connection refused")) [] in
  let f := {| Rpc := "https://relay.flashbots.net"; Key := 1%N |} in
  let payload :=
    list_byte_of_string (Stub.print (envelope MethodGetUserStats [PUint64 255%N])) in
  let digestHash := messageHash payload in
  let evs := [Signed digestHash; Posted (postedRequest f payload)] in
  ((forall data, List.length (crypto_Keccak256 data) = 32%nat)
   /\ snd (requestRPC f MethodGetUserStats [PUint64 255%N] []) = [] ++ evs
   /\ In (Signed digestHash) evs)
  /\ exists payload',
      json_encode (envelope MethodGetUserStats [PUint64 255%N]) = Ok payload'
      /\ String.length (hexutil.Encode (crypto_Keccak256 payload')) = 66%nat
      /\ digestHash
         = crypto_Keccak256
             (list_byte_of_string
                (TextHash_prefix +++ "66" +++ hexutil.Encode (crypto_Keccak256 payload'))).
Proof.
  intros libs f payload digestHash evs.
  assert (H1 : forall data, List.length (crypto_Keccak256 data) = 32%nat).
  { intros data. cbn [crypto_Keccak256 libs libs32]. unfold pad32.
    rewrite length_firstn, length_app, repeat_length. lia. }
  assert (H2 : snd (requestRPC f MethodGetUserStats [PUint64 255%N] []) = [] ++ evs)
    by (vm_compute; reflexivity).
  assert (H3 : In (Signed digestHash) evs) by (left; reflexivity).
  split; [exact (conj H1 (conj H2 H3)) |].
  exact (signed_message_of_32_byte_digest f MethodGetUserStats [PUint64 255%N] [] evs
           digestHash H1 H2 H3).
Defined.

Lemma SendPrivateTransaction_posts_its_arguments_witness :
  let libs := Stub.relayAccepts in
  let f := Stub.client libs 1%N in
  let args := JObj [("txs", JStr "0x02f8");
                    ("maxBlockNumber", JStr "0x100");
                    ("preferences", JNull)] in
  let body := JObj [("jsonrpc", JStr "2.0");
                    ("id", JNum (Int 1));
                    ("method", JStr "eth_sendPrivateTransaction");
                    ("params", JArr [args; args])] in
  let payload := list_byte_of_string (Stub.print body) in
  let req := postedRequest f payload in
  let evs := [Signed (messageHash payload); Posted req] in
  (snd (SendPrivateTransaction f "0x02f8" "0x100" []) = [] ++ evs
   /\ In (Posted req) evs)
  /\ json_encode body = Ok (http.Body req).
Proof.
  intros libs f args body payload req evs.
  assert (H1 : snd (SendPrivateTransaction f "0x02f8" "0x100" []) = [] ++ evs)
    by (vm_compute; reflexivity).
  assert (H2 : In (Posted req) evs) by (right; left; reflexivity).
  split; [exact (conj H1 H2) |].
  exact (SendPrivateTransaction_posts_its_arguments f "0x02f8" "0x100" [] evs req H1 H2).
Defined.
